(** * A REST wrapper around database handlers: model and properties

    Shallow embedding of
    [mindsdb/integrations/handlers_wrapper/db_handler_wrapper.py]:
    the classes [BaseDBWrapper] and [DBHandlerWrapper], whose methods are
    Flask views that rebuild a handler from the request body, call one of
    its capabilities and wrap the outcome into a JSON body and an HTTP
    status code.

    Python values are modelled by [pyval], raised [Exception] instances by
    [exn], and a view by a computation in the monad [M], which threads the
    external world, allocates object identities and records the calls the
    view makes to its collaborators.  What the module imports (Flask,
    [json], [pickle], [traceback], the handler registry and the handlers)
    is the class [Runtime]; [base64] is modelled after CPython.  The calls
    of the logger change neither the response nor the handlers and are
    left out, except for the read of the request body that one of them
    makes. *)

From Stdlib Require Import List String Ascii ZArith NArith Lia Bool Arith.
From Stdlib.Strings Require Import Byte.
From Stdlib Require Import DecimalString.
Import ListNotations.

Local Open Scope string_scope.
Local Open Scope list_scope.

(** ** Python values *)

(** A Python [bytes] object. *)
Definition bytes := list byte.

(** The values that [json.loads] and [request.json] produce.  A [str] is
    carried by its UTF-8 text, a [dict] by its items in insertion order
    (the keys of a JSON object are always strings), a number that is not
    an integer by its literal. *)
#[warnings="-register-all"] Inductive pyval : Type :=
| PNone
| PBool (b : bool)
| PInt (z : Z)
| PFloat (literal : string)
| PStr (s : string)
| PList (items : list pyval)
| PDict (items : list (string * pyval)).

(** [type(v).__name__] *)
Definition type_name (v : pyval) : string :=
  match v with
  | PNone => "NoneType"
  | PBool _ => "bool"
  | PInt _ => "int"
  | PFloat _ => "float"
  | PStr _ => "str"
  | PList _ => "list"
  | PDict _ => "dict"
  end.

(** ** Exceptions *)

(** An instance of a subclass of [Exception]: its class name and [str(e)].
    Objects that derive from [BaseException] only ([KeyboardInterrupt],
    [SystemExit]) are signals to the interpreter and are not modelled. *)
Record exn : Type := mk_exn { exc_class : string; exc_text : string }.

(** The result of evaluating a Python expression: a value or a raised
    exception. *)
Inductive outcome (A : Type) : Type :=
| Ok (a : A)
| Raise (e : exn).
Arguments Ok {A} a.
Arguments Raise {A} e.

Definition KeyError (k : string) : exn := mk_exn "KeyError" ("'" ++ k ++ "'").

Definition TypeError (msg : string) : exn := mk_exn "TypeError" msg.

Definition AttributeError (v : pyval) (attr : string) : exn :=
  mk_exn "AttributeError"
         ("'" ++ type_name v ++ "' object has no attribute '" ++ attr ++ "'").

(** [binascii.Error] *)
Definition BinasciiError (msg : string) : exn := mk_exn "binascii.Error" msg.

(** ** Operations of the language on values *)

(** Lookup in the items of a [dict]. *)
Fixpoint lookup (k : string) (items : list (string * pyval)) : option pyval :=
  match items with
  | [] => None
  | (k', v) :: rest => if String.eqb k k' then Some v else lookup k rest
  end.

(** [v[k]] for a string key [k] *)
Definition getitem (v : pyval) (k : string) : outcome pyval :=
  match v with
  | PDict items =>
      match lookup k items with
      | Some x => Ok x
      | None => Raise (KeyError k)
      end
  | PStr _ => Raise (TypeError "string indices must be integers")
  | PList _ =>
      Raise (TypeError "list indices must be integers or slices, not str")
  | _ =>
      Raise (TypeError ("'" ++ type_name v ++ "' object is not subscriptable"))
  end.

(** [v.get(k)]: the value under [k], [None] when the key is absent; only a
    [dict] has the method. *)
Definition dict_get (v : pyval) (k : string) : outcome pyval :=
  match v with
  | PDict items =>
      match lookup k items with
      | Some x => Ok x
      | None => Ok PNone
      end
  | _ => Raise (AttributeError v "get")
  end.

(** [v.encode("utf-8")]: only a [str] has the method; a [str] is carried
    by its UTF-8 text, so encoding lists its bytes.  A [str] with a lone
    surrogate, which has no UTF-8 text, is not a value of the model. *)
Definition str_encode_utf8 (v : pyval) : outcome bytes :=
  match v with
  | PStr s => Ok (list_byte_of_string s)
  | _ => Raise (AttributeError v "encode")
  end.

(** The keyword arguments of a call that expands [v] with the double-star
    operator: [v] must be a mapping. *)
Definition kwargs_of (v : pyval) : outcome (list (string * pyval)) :=
  match v with
  | PDict items => Ok items
  | _ =>
      Raise (TypeError ("argument after ** must be a mapping, not "
                          ++ type_name v))
  end.

(** ** [traceback.format_exc] *)

Section Traceback.

(** The rendering of the stack frames between the [try] and the place
    that raised; it depends on the installation (file names, line
    numbers) and is supplied by the runtime. *)
Variable frames_of : exn -> string.

Definition format_exc (e : exn) : string :=
  "Traceback (most recent call last):" ++ String "010" (frames_of e)
    ++ exc_class e
    ++ (if String.eqb (exc_text e) "" then "" else ": " ++ exc_text e)
    ++ String "010" "".

End Traceback.

(** [needle in hay] on text. *)
Fixpoint mentions (needle hay : string) : bool :=
  String.prefix needle hay
  || match hay with
     | EmptyString => false
     | String _ rest => mentions needle rest
     end.

(** ** The [base64] module *)

Module Base64.

Definition alphabet : bytes :=
  list_byte_of_string
    "ABCDEFGHIJKLMNOPQRSTUVWXYZabcdefghijklmnopqrstuvwxyz0123456789+/".

(** [BASE64_PAD] *)
Definition pad : byte := "="%byte.

(** [table_b2a_base64]: the character of a 6-bit group. *)
Definition table_b2a_base64 (v : N) : byte :=
  nth (N.to_nat v) alphabet pad.

Fixpoint index_of (ch : byte) (tbl : bytes) (i : N) : option N :=
  match tbl with
  | [] => None
  | c :: rest => if Byte.eqb ch c then Some i else index_of ch rest (N.succ i)
  end.

(** [table_a2b_base64]: the 6-bit group of a character of the alphabet,
    nothing for any other character. *)
Definition table_a2b_base64 (ch : byte) : option N := index_of ch alphabet 0.

(** Assignment to an [unsigned char]. *)
Definition to_uchar (n : N) : byte :=
  match Byte.of_N (N.land n 255) with
  | Some b => b
  | None => x00
  end.

(** [base64.b64encode], which is [binascii.b2a_base64] without the final
    newline: three bytes give four characters, and a last group of one or
    two bytes is completed with pad characters. *)
Fixpoint b64encode (data : bytes) : bytes :=
  match data with
  | [] => []
  | [a] =>
      let a := Byte.to_N a in
      [ table_b2a_base64 (N.shiftr a 2);
        table_b2a_base64 (N.shiftl (N.land a 3) 4); pad; pad ]
  | [a; b] =>
      let a := Byte.to_N a in
      let b := Byte.to_N b in
      [ table_b2a_base64 (N.shiftr a 2);
        table_b2a_base64 (N.lor (N.shiftl (N.land a 3) 4) (N.shiftr b 4));
        table_b2a_base64 (N.shiftl (N.land b 15) 2); pad ]
  | a :: b :: c :: rest =>
      let a := Byte.to_N a in
      let b := Byte.to_N b in
      let c := Byte.to_N c in
      table_b2a_base64 (N.shiftr a 2)
        :: table_b2a_base64 (N.lor (N.shiftl (N.land a 3) 4) (N.shiftr b 4))
        :: table_b2a_base64 (N.lor (N.shiftl (N.land b 15) 2) (N.shiftr c 6))
        :: table_b2a_base64 (N.land c 63)
        :: b64encode rest
  end.

Definition string_of_N (n : N) : string :=
  match n with
  | 0%N => "0"
  | _ => NilEmpty.string_of_uint (N.to_uint n)
  end.

(** The loop of [binascii.a2b_base64] in its default, non-strict mode:
    [quad_pos] is the position in the current group of four characters,
    [leftchar] the bits not yet written, [pads] the number of pad
    characters just seen and [out] the bytes written so far.  Characters
    outside the alphabet are skipped; a pad sequence that completes a
    group ends the decoding. *)
Fixpoint a2b_loop (data : bytes) (quad_pos leftchar pads : N) (out : bytes)
  : outcome bytes :=
  match data with
  | [] =>
      if (quad_pos =? 0)%N then Ok out
      else if (quad_pos =? 1)%N then
        Raise (BinasciiError
                 ("Invalid base64-encoded string: number of data characters ("
                    ++ string_of_N (N.of_nat (List.length out) / 3 * 4 + 1)
                    ++ ") cannot be 1 more than a multiple of 4"))
      else Raise (BinasciiError "Incorrect padding")
  | ch :: rest =>
      if Byte.eqb ch pad then
        if (2 <=? quad_pos)%N then
          if (4 <=? quad_pos + (pads + 1))%N then Ok out
          else a2b_loop rest quad_pos leftchar (pads + 1) out
        else a2b_loop rest quad_pos leftchar pads out
      else
        match table_a2b_base64 ch with
        | None => a2b_loop rest quad_pos leftchar pads out
        | Some this_ch =>
            match quad_pos with
            | 0%N => a2b_loop rest 1 this_ch 0 out
            | 1%N =>
                a2b_loop rest 2 (N.land this_ch 15) 0
                  (out ++ [to_uchar (N.lor (N.shiftl leftchar 2)
                                           (N.shiftr this_ch 4))])
            | 2%N =>
                a2b_loop rest 3 (N.land this_ch 3) 0
                  (out ++ [to_uchar (N.lor (N.shiftl leftchar 4)
                                           (N.shiftr this_ch 2))])
            | _ =>
                a2b_loop rest 0 0 0
                  (out ++ [to_uchar (N.lor (N.shiftl leftchar 6) this_ch)])
            end
        end
  end.

(** [base64.b64decode(s)] with its default arguments. *)
Definition b64decode (s : bytes) : outcome bytes := a2b_loop s 0 0 0 [].

End Base64.

(** ** Requests and responses *)

(** The request object of Flask, as far as the views read it. *)
Record request : Type := mk_request {
  req_method : string;
  req_path : string;
  req_mimetype : string;
  req_data : bytes
}.

(** [RESPONSE_TYPE] of [mindsdb.integrations.libs.response] *)
Inductive RESPONSE_TYPE : Type := TABLE | OK | ERROR.

(** Tabular data: rows in order, each a mapping from column name to a
    scalar. *)
Definition table : Type := list (list (string * pyval)).

(** Modelled from the spec: the class [HandlerResponse] of
    [mindsdb.integrations.libs.response], imported as [Response], is not
    part of the source tree; the spec gives the Query Response the fields
    type, error_code, error_message and result_set, each of the last three
    possibly null. *)
Record Response : Type := mk_Response {
  resp_type : RESPONSE_TYPE;
  error_code : option Z;
  error_message : option string;
  result_set : option table
}.

(** Modelled from the spec: the class [HandlerStatusResponse], imported as
    [StatusResponse], is not part of the source tree; the spec gives the
    Status Response a boolean success and an error_message that may be
    null. *)
Record StatusResponse : Type := mk_StatusResponse {
  success : bool;
  status_error_message : option string
}.

(** [Response(resp_type=..., error_code=..., error_message=...)]: the
    result set is left at its default. *)
Definition new_Response (t : RESPONSE_TYPE) (code : Z) (msg : string)
  : Response :=
  mk_Response t (Some code) (Some msg) None.

(** [StatusResponse(success=..., error_message=...)] *)
Definition new_StatusResponse (ok : bool) (msg : string) : StatusResponse :=
  mk_StatusResponse ok (Some msg).

(** What a view returns as the body: a text, a [dict] literal, or the
    [to_json()] of a response object, which carries the fields of that
    object. *)
Inductive body : Type :=
| BodyText (s : string)
| BodyDict (items : list (string * pyval))
| StatusJson (r : StatusResponse)
| QueryJson (r : Response).

(** A view returns the pair of a body and an HTTP status code. *)
Definition response : Type := body * Z.

(** ** The monad of views *)

Section Monad.

(** [S]: the state a computation threads; [E]: the events it records. *)
Context {S E : Type}.

(** A computation takes a state and gives a value or a raised exception,
    the new state and the events it recorded, oldest first. *)
Definition M (A : Type) : Type := S -> outcome A * S * list E.

Definition ret {A : Type} (a : A) : M A := fun s => (Ok a, s, []).

Definition bind {A B : Type} (m : M A) (k : A -> M B) : M B :=
  fun s =>
    match m s with
    | (Ok a, s1, t1) =>
        match k a s1 with
        | (r, s2, t2) => (r, s2, t1 ++ t2)
        end
    | (Raise e, s1, t1) => (Raise e, s1, t1)
    end.

(** [try: body except Exception: handler] *)
Definition try_except {A : Type} (body : M A) (handler : exn -> M A) : M A :=
  fun s =>
    match body s with
    | (Ok a, s1, t1) => (Ok a, s1, t1)
    | (Raise e, s1, t1) =>
        match handler e s1 with
        | (r, s2, t2) => (r, s2, t1 ++ t2)
        end
    end.

(** An operation of the language: no state, no event. *)
Definition eval {A : Type} (r : outcome A) : M A := fun s => (r, s, []).

(** A call that leaves the state as it is. *)
Definition pure_call {A : Type} (ev : E) (r : outcome A) : M A :=
  fun s => (r, s, [ev]).

End Monad.

Arguments M : clear implicits.

Declare Scope view_scope.
Delimit Scope view_scope with view.
Notation "x <- m ;; k" := (bind m (fun x => k))
  (at level 61, m at next level, right associativity) : view_scope.
Notation "m ;;; k" := (bind m (fun _ => k))
  (at level 61, right associativity) : view_scope.

(** Projections of the result of running a computation. *)
Definition result_of {S E A : Type} (r : outcome A * S * list E) : outcome A :=
  fst (fst r).
Definition state_of {S E A : Type} (r : outcome A * S * list E) : S :=
  snd (fst r).
Definition trace_of {S E A : Type} (r : outcome A * S * list E) : list E :=
  snd r.

(** ** The collaborators of the wrapper *)

Section Wrapper.

(** [W]: the state of everything outside the process (the databases the
    handlers talk to); [Q]: the query objects of the backend; [Cls]: the
    handler classes; [H]: the handler objects. *)
Context {W Q Cls H : Type}.

(** The calls a view can make on a handler object. *)
Inductive call : Type :=
| CallConnect
| CallDisconnect
| CallCheckConnection
| CallNativeQuery (query : pyval)
| CallQuery (query : Q)
| CallGetTables
| CallGetColumns (table_name : pyval).

(** What a view does to its collaborators, in the order it does it. *)
Inductive event : Type :=
| EvGetData
| EvRequestJson
| EvJsonLoads (data : bytes)
| EvGetItem (key : string)
| EvGet (key : string)
| EvEncode
| EvB64Decode (data : bytes)
| EvPickleLoads (data : bytes)
| EvLookupClass (tag : pyval)
| EvConstruct (cls : Cls) (kwargs : list (string * pyval)) (id : nat)
| EvCall (id : nat) (c : call).

(** Everything the module imports and does not define. *)
Class Runtime : Type := {
  (** [request.json] of Flask *)
  flask_json : request -> outcome pyval;
  (** [json.loads] *)
  json_loads : bytes -> outcome pyval;
  (** [pickle.loads], as the function from the bytes to the object or
      the exception; what the callables named in the bytes may do to the
      outside while it runs is not modelled *)
  pickle_loads : bytes -> outcome Q;
  (** the stack rendering of [traceback.format_exc] *)
  frames_of : exn -> string;
  (** [get_handler] of [mindsdb.integrations.libs.handler_helpers] *)
  helpers_get_handler : pyval -> outcome Cls;
  (** calling a handler class with keyword arguments *)
  construct : Cls -> list (string * pyval) -> W -> outcome H * W;
  (** the capabilities of a handler object, which return response
      objects *)
  handler_connect : H -> W -> outcome unit * W;
  handler_disconnect : H -> W -> outcome unit * W;
  handler_check_connection : H -> W -> outcome StatusResponse * W;
  handler_native_query : H -> pyval -> W -> outcome Response * W;
  handler_query : H -> Q -> W -> outcome Response * W;
  handler_get_tables : H -> W -> outcome Response * W;
  handler_get_columns : H -> pyval -> W -> outcome Response * W
}.

Context {R : Runtime}.

(** The state a view runs in: the outside world and the identity the next
    object will get. *)
Record state : Type := mk_state { world : W; next_id : nat }.

(** A handler object together with its identity. *)
Record handle : Type := mk_handle { obj_id : nat; obj : H }.

(** The computations of a view. *)
Definition View (A : Type) : Type := M state event A.

(** A call of a capability of a handler object. *)
Definition invoke {A : Type} (h : handle) (c : call)
  (f : H -> W -> outcome A * W) : View A :=
  fun s =>
    match f (obj h) (world s) with
    | (r, w) => (r, mk_state w (next_id s), [EvCall (obj_id h) c])
    end.

(** A call of a handler class: the new object gets the next identity. *)
Definition instantiate (cls : Cls) (kwargs : list (string * pyval))
  : View handle :=
  fun s =>
    let id := next_id s in
    match construct cls kwargs (world s) with
    | (Ok o, w) =>
        (Ok (mk_handle id o), mk_state w (S id), [EvConstruct cls kwargs id])
    | (Raise e, w) => (Raise e, mk_state w (S id), [EvConstruct cls kwargs id])
    end.

Local Open Scope view_scope.

(** ** [BaseDBWrapper] *)

(** [BaseDBWrapper.index] *)
Definition index (_ : request) : View response :=
  ret (BodyText "A DB Service Wrapper", 200%Z).

(** [BaseDBWrapper.get_handler] *)
Definition get_handler (_json : pyval) : View handle :=
  tag <- pure_call (EvGetItem "handler_type") (getitem _json "handler_type") ;;
  handler_class <- pure_call (EvLookupClass tag) (helpers_get_handler tag) ;;
  kw <- pure_call (EvGetItem "handler_kwargs")
          (getitem _json "handler_kwargs") ;;
  kwargs <- eval (kwargs_of kw) ;;
  instantiate handler_class kwargs.

(** ** [DBHandlerWrapper] *)

(** [request.json] *)
Definition request_json (request : request) : View pyval :=
  pure_call EvRequestJson (flask_json request).

(** [request.get_data()]: the body of a request that was received, a
    read taken to succeed *)
Definition get_data (request : request) : View bytes :=
  pure_call EvGetData (Ok (req_data request)).

(** The body of the views [connect] and [disconnect] when an exception is
    caught. *)
Definition fail_body (e : exn) : body :=
  let msg := format_exc frames_of e in
  BodyDict [("status", PStr "FAIL"); ("error", PStr msg)].

(** The body of the query-shaped views when an exception is caught. *)
Definition error_response (e : exn) : response :=
  let msg := format_exc frames_of e in
  let result := new_Response ERROR 1 msg in
  (QueryJson result, 500%Z).

(** The [try] block of [connect]. *)
Definition connect_try (request : request) : View response :=
  _json <- request_json request ;;
  handler <- get_handler _json ;;
  invoke handler CallConnect handler_connect ;;;
  ret (BodyDict [("status", PStr "OK")], 200%Z).

(** [DBHandlerWrapper.connect] *)
Definition connect (request : request) : View response :=
  try_except (connect_try request) (fun e => ret (fail_body e, 500%Z)).

(** The [try] block of [disconnect]. *)
Definition disconnect_try (request : request) : View response :=
  _json <- request_json request ;;
  handler <- get_handler _json ;;
  invoke handler CallDisconnect handler_disconnect ;;;
  ret (BodyDict [("status", PStr "OK")], 200%Z).

(** [DBHandlerWrapper.disconnect] *)
Definition disconnect (request : request) : View response :=
  try_except (disconnect_try request) (fun e => ret (fail_body e, 500%Z)).

(** The [try] block of [check_connection]. *)
Definition check_connection_try (request : request) : View response :=
  _json <- request_json request ;;
  handler <- get_handler _json ;;
  result <- invoke handler CallCheckConnection handler_check_connection ;;
  ret (StatusJson result, 200%Z).

(** [DBHandlerWrapper.check_connection] *)
Definition check_connection (request : request) : View response :=
  try_except (check_connection_try request)
    (fun e =>
       let msg := format_exc frames_of e in
       let result := new_StatusResponse false msg in
       ret (StatusJson result, 500%Z)).

(** The [try] block of [native_query]. *)
Definition native_query_try (request : request) (query : pyval)
  : View response :=
  _json <- request_json request ;;
  handler <- get_handler _json ;;
  result <- invoke handler (CallNativeQuery query)
              (fun h => handler_native_query h query) ;;
  ret (QueryJson result, 200%Z).

(** [DBHandlerWrapper.native_query]: the query is read from the request
    before the [try] is entered. *)
Definition native_query (request : request) : View response :=
  _json0 <- request_json request ;;
  query <- pure_call (EvGet "query") (dict_get _json0 "query") ;;
  try_except (native_query_try request query)
    (fun e => ret (error_response e)).

(** The first [try] block of [query]: the parsed body and the query
    object it carries. *)
Definition decode_query (request : request) : View (pyval * Q) :=
  _json_bytes <- get_data request ;;
  _json <- pure_call (EvJsonLoads _json_bytes) (json_loads _json_bytes) ;;
  q <- pure_call (EvGetItem "query") (getitem _json "query") ;;
  b64_query_bytes <- pure_call EvEncode (str_encode_utf8 q) ;;
  s_query <- pure_call (EvB64Decode b64_query_bytes)
               (Base64.b64decode b64_query_bytes) ;;
  query <- pure_call (EvPickleLoads s_query) (pickle_loads s_query) ;;
  ret (_json, query).

(** The second [try] block of [query]. *)
Definition query_try (_json : pyval) (query : Q) : View response :=
  handler <- get_handler _json ;;
  result <- invoke handler (CallQuery query)
              (fun h => handler_query h query) ;;
  ret (QueryJson result, 200%Z).

(** [DBHandlerWrapper.query]: the first [try] returns from the view when
    it catches an exception, the second runs only after the first went
    through. *)
Definition query (request : request) : View response :=
  get_data request ;;;
  decoded <- try_except
               (d <- decode_query request ;; ret (inl d))
               (fun e => ret (inr (error_response e))) ;;
  match decoded with
  | inr early => ret early
  | inl (_json, query) =>
      try_except (query_try _json query) (fun e => ret (error_response e))
  end.

(** The [try] block of [get_tables]. *)
Definition get_tables_try (request : request) : View response :=
  _json <- request_json request ;;
  handler <- get_handler _json ;;
  result <- invoke handler CallGetTables handler_get_tables ;;
  ret (QueryJson result, 200%Z).

(** [DBHandlerWrapper.get_tables] *)
Definition get_tables (request : request) : View response :=
  try_except (get_tables_try request) (fun e => ret (error_response e)).

(** The [try] block of [get_columns]. *)
Definition get_columns_try (request : request) : View response :=
  _json0 <- request_json request ;;
  table <- pure_call (EvGet "table") (dict_get _json0 "table") ;;
  _json <- request_json request ;;
  handler <- get_handler _json ;;
  result <- invoke handler (CallGetColumns table)
              (fun h => handler_get_columns h table) ;;
  ret (QueryJson result, 200%Z).

(** [DBHandlerWrapper.get_columns] *)
Definition get_columns (request : request) : View response :=
  try_except (get_columns_try request) (fun e => ret (error_response e)).

(** ** The routes *)

(** The views, by the name Flask registers them under. *)
Inductive view_name : Type :=
| v_index
| v_connect
| v_disconnect
| v_check_connection
| v_get_tables
| v_get_columns
| v_native_query
| v_query.

Definition view_function (v : view_name) : request -> View response :=
  match v with
  | v_index => index
  | v_connect => connect
  | v_disconnect => disconnect
  | v_check_connection => check_connection
  | v_get_tables => get_tables
  | v_get_columns => get_columns
  | v_native_query => native_query
  | v_query => query
  end.

(** A rule of the URL map of the application. *)
Record rule : Type := mk_rule {
  rule_path : string;
  rule_methods : list string;
  rule_view : view_name
}.

(** [view = self.app.route(path, methods=methods)(view)]: the rule is
    added after the rules already there.  The rule lists the methods
    given; the methods HEAD and OPTIONS, which Flask adds on its own, are
    not listed. *)
Definition route (url_map : list rule) (path : string)
  (methods : list string) (v : view_name) : list rule :=
  url_map ++ [mk_rule path methods v].

(** [BaseDBWrapper.__init__]; a route without [methods] answers GET. *)
Definition BaseDBWrapper_init : list rule :=
  route [] "/" ["GET"] v_index.

(** [DBHandlerWrapper.__init__] *)
Definition DBHandlerWrapper_init : list rule :=
  let app := BaseDBWrapper_init in
  let app := route app "/connect" ["GET"] v_connect in
  let app := route app "/connect" ["GET"] v_disconnect in
  let app := route app "/check_connection" ["GET"] v_check_connection in
  let app := route app "/get_tables" ["GET"] v_get_tables in
  let app := route app "/get_columns" ["GET"] v_get_columns in
  let app := route app "/native_query" ["POST"; "PUT"] v_native_query in
  let app := route app "/query" ["GET"] v_query in
  app.

Definition rule_matches (path method : string) (r : rule) : bool :=
  String.eqb (rule_path r) path
  && existsb (String.eqb method) (rule_methods r).

(** The matching of a request against the URL map: of the rules with the
    path and the method of the request, the one added first. *)
Definition match_request (url_map : list rule) (path method : string)
  : option view_name :=
  option_map rule_view (find (rule_matches path method) url_map).

(** What the framework gets back from the dispatch of a request: the
    response of a view, an exception that left the view, or no view. *)
Inductive served : Type :=
| Answered (r : response)
| Escaped (e : exn)
| NoRoute.

(** The dispatch of one request by the application. *)
Definition dispatch_request (url_map : list rule) (req : request)
  : state -> served * state * list event :=
  fun s =>
    match match_request url_map (req_path req) (req_method req) with
    | None => (NoRoute, s, [])
    | Some v =>
        match view_function v req s with
        | (Ok r, s1, t) => (Answered r, s1, t)
        | (Raise e, s1, t) => (Escaped e, s1, t)
        end
    end.

(** The application serving requests one after the other: what each one
    got back and the events of its dispatch. *)
Fixpoint serve (url_map : list rule) (reqs : list request) (s : state)
  : list (served * list event) :=
  match reqs with
  | [] => []
  | req :: rest =>
      match dispatch_request url_map req s with
      | (r, s1, t) => (r, t) :: serve url_map rest s1
      end
  end.

(** ** Vocabulary of the properties *)

(** The views that answer with a Query Response. *)
Definition query_shaped (v : view_name) : bool :=
  match v with
  | v_native_query | v_query | v_get_tables | v_get_columns => true
  | _ => false
  end.

(** The exception [e] is caught by an [except] clause of a query-shaped
    view: a [try] block of the view raises it. *)
Definition caught (v : view_name) (req : request) (s : state) (e : exn)
  : Prop :=
  match v with
  | v_native_query =>
      exists (j query : pyval),
        flask_json req = Ok j
        /\ dict_get j "query" = Ok query
        /\ result_of (native_query_try req query s) = Raise e
  | v_query =>
      result_of (decode_query req s) = Raise e
      \/ exists (j : pyval) (q : Q),
           result_of (decode_query req s) = Ok (j, q)
           /\ result_of (query_try j q (state_of (decode_query req s)))
              = Raise e
  | v_get_tables => result_of (get_tables_try req s) = Raise e
  | v_get_columns => result_of (get_columns_try req s) = Raise e
  | _ => False
  end.

(** The views that resolve a handler: all but [index]. *)
Definition needs_handler (v : view_name) : bool :=
  match v with
  | v_index => false
  | _ => true
  end.

(** The parsed body a view resolves its handler from: [query] parses the
    raw data itself, the other views read [request.json]. *)
Definition parsed_body (v : view_name) (req : request) : outcome pyval :=
  match v with
  | v_query => json_loads (req_data req)
  | _ => flask_json req
  end.

(** The events of the resolution of a handler and of its use. *)
Definition touches_handler (ev : event) : bool :=
  match ev with
  | EvLookupClass _ | EvConstruct _ _ _ | EvCall _ _ => true
  | _ => false
  end.

(** The identities of the objects constructed, and of the objects
    called, in a trace. *)
Definition constructed (t : list event) : list nat :=
  flat_map (fun ev => match ev with EvConstruct _ _ id => [id] | _ => [] end) t.

Definition called (t : list event) : list nat :=
  flat_map (fun ev => match ev with EvCall id _ => [id] | _ => [] end) t.

(** The diagnostic text of a body, if it carries one. *)
Definition diagnostic (b : body) : option string :=
  match b with
  | BodyText _ => None
  | BodyDict items =>
      match lookup "error" items with
      | Some (PStr msg) => Some msg
      | _ => None
      end
  | StatusJson r => status_error_message r
  | QueryJson r => error_message r
  end.

(** The ways the decoding of the body of [query] fails, with the
    exception raised: the body is not JSON, it has no field [query] to
    read, the field is not text, the text is not base64, or the bytes do
    not deserialize. *)
Inductive decode_failure (data : bytes) (e : exn) : Prop :=
| bad_json :
    json_loads data = Raise e -> decode_failure data e
| bad_field (j : pyval) :
    json_loads data = Ok j ->
    getitem j "query" = Raise e -> decode_failure data e
| bad_text (j q : pyval) :
    json_loads data = Ok j ->
    getitem j "query" = Ok q ->
    str_encode_utf8 q = Raise e -> decode_failure data e
| bad_base64 (j q : pyval) (b64 : bytes) :
    json_loads data = Ok j ->
    getitem j "query" = Ok q ->
    str_encode_utf8 q = Ok b64 ->
    Base64.b64decode b64 = Raise e -> decode_failure data e
| bad_pickle (j q : pyval) (b64 s_query : bytes) :
    json_loads data = Ok j ->
    getitem j "query" = Ok q ->
    str_encode_utf8 q = Ok b64 ->
    Base64.b64decode b64 = Ok s_query ->
    pickle_loads s_query = Raise e -> decode_failure data e.

(** A view reports the unresolved type [ty]: it answers with status 500
    and a diagnostic that mentions [ty], and has called no handler. *)
Definition reports_unknown_type (v : view_name) (req : request) (s : state)
  (ty : string) : Prop :=
  exists (b : body) (msg : string),
    result_of (view_function v req s) = Ok (b, 500%Z)
    /\ diagnostic b = Some msg
    /\ mentions ty msg = true
    /\ called (trace_of (view_function v req s)) = [].

(** The steps of [query]: reading the body, parsing it, extracting the
    field [query] as bytes, decoding them, deserializing the result,
    resolving the handler and calling its [query]. *)
Inductive step : Type :=
| ReadBody
| ParseJson
| ExtractQuery
| DecodeBase64
| Deserialize
| ResolveHandler
| InvokeQuery
| OtherStep.

Definition step_of (ev : event) : step :=
  match ev with
  | EvGetData => ReadBody
  | EvJsonLoads _ => ParseJson
  | EvGetItem key =>
      if String.eqb key "query" then ExtractQuery else ResolveHandler
  | EvEncode => ExtractQuery
  | EvB64Decode _ => DecodeBase64
  | EvPickleLoads _ => Deserialize
  | EvLookupClass _ | EvConstruct _ _ _ => ResolveHandler
  | EvCall _ (CallQuery _) => InvokeQuery
  | _ => OtherStep
  end.

(** The steps of [query] in order: the body is read once for the log and
    once for the parser, the field is read and then encoded to bytes, and
    the resolution reads the type, looks the class up, reads the
    arguments and constructs the handler. *)
Definition query_order : list step :=
  [ ReadBody; ReadBody; ParseJson; ExtractQuery; ExtractQuery; DecodeBase64;
    Deserialize; ResolveHandler; ResolveHandler; ResolveHandler;
    ResolveHandler; InvokeQuery ].

(** The events of [query] when every step goes through, in order. *)
Definition query_steps (data : bytes) (b64 s_query : bytes) (tag : pyval)
  (cls : Cls) (kwargs : list (string * pyval)) (id : nat) (q : Q)
  : list event :=
  [ EvGetData; EvGetData; EvJsonLoads data; EvGetItem "query"; EvEncode;
    EvB64Decode b64; EvPickleLoads s_query;
    EvGetItem "handler_type"; EvLookupClass tag; EvGetItem "handler_kwargs";
    EvConstruct cls kwargs id; EvCall id (CallQuery q) ].

(** ** Vocabulary of further properties *)

(** The decoding of the body of [query] as a function of the raw data:
    what the first [try] block computes, without its events. *)
Definition decode_body (data : bytes) : outcome (pyval * Q) :=
  match json_loads data with
  | Raise e => Raise e
  | Ok _json =>
      match getitem _json "query" with
      | Raise e => Raise e
      | Ok q =>
          match str_encode_utf8 q with
          | Raise e => Raise e
          | Ok b64_query_bytes =>
              match Base64.b64decode b64_query_bytes with
              | Raise e => Raise e
              | Ok s_query =>
                  match pickle_loads s_query with
                  | Raise e => Raise e
                  | Ok query => Ok (_json, query)
                  end
              end
          end
      end
  end.

(** The call a view makes on its handler: the capability of its name,
    with the argument it reads from the request. *)
Definition own_call (v : view_name) (req : request) (c : call) : Prop :=
  match v with
  | v_index => False
  | v_connect => c = CallConnect
  | v_disconnect => c = CallDisconnect
  | v_check_connection => c = CallCheckConnection
  | v_get_tables => c = CallGetTables
  | v_get_columns =>
      exists (j table : pyval),
        flask_json req = Ok j
        /\ dict_get j "table" = Ok table
        /\ c = CallGetColumns table
  | v_native_query =>
      exists (j query : pyval),
        flask_json req = Ok j
        /\ dict_get j "query" = Ok query
        /\ c = CallNativeQuery query
  | v_query =>
      exists (j : pyval) (q : Q),
        decode_body (req_data req) = Ok (j, q) /\ c = CallQuery q
  end.

(** The envelope of a view: the bodies and status codes it answers
    with. *)
Definition in_envelope (v : view_name) (r : response) : Prop :=
  match v with
  | v_index => r = (BodyText "A DB Service Wrapper", 200%Z)
  | v_connect | v_disconnect =>
      r = (BodyDict [("status", PStr "OK")], 200%Z)
      \/ exists msg : string,
           r = (BodyDict [("status", PStr "FAIL"); ("error", PStr msg)],
                500%Z)
  | v_check_connection =>
      exists sr : StatusResponse,
        r = (StatusJson sr, 200%Z) \/ r = (StatusJson sr, 500%Z)
  | _ =>
      exists qr : Response,
        r = (QueryJson qr, 200%Z) \/ r = (QueryJson qr, 500%Z)
  end.

(** The world after the call [c] on the handler object [o] in the world
    [w]: what the capability called leaves behind. *)
Definition world_after (c : call) (o : H) (w : W) : W :=
  match c with
  | CallConnect => snd (handler_connect o w)
  | CallDisconnect => snd (handler_disconnect o w)
  | CallCheckConnection => snd (handler_check_connection o w)
  | CallNativeQuery query => snd (handler_native_query o query w)
  | CallQuery query => snd (handler_query o query w)
  | CallGetTables => snd (handler_get_tables o w)
  | CallGetColumns table_name => snd (handler_get_columns o table_name w)
  end.

End Wrapper.

Arguments Runtime : clear implicits.
Arguments event : clear implicits.
Arguments call : clear implicits.
Arguments state : clear implicits.
Arguments handle : clear implicits.
Arguments View : clear implicits.
Arguments format_exc : simpl never.
Arguments get_handler : simpl never.
Arguments decode_query : simpl never.
Arguments connect_try : simpl never.
Arguments disconnect_try : simpl never.
Arguments check_connection_try : simpl never.
Arguments native_query_try : simpl never.
Arguments query_try : simpl never.
Arguments get_tables_try : simpl never.
Arguments get_columns_try : simpl never.

(** ** The resolver of the spec *)

Section Registry.

Context {Cls : Type}.

(** The external registry: the handler class registered under a tag. *)
Variable registry : string -> option Cls.

Definition UnknownBackendType (tag : string) : exn :=
  mk_exn "UnknownBackendType" ("unknown backend type '" ++ tag ++ "'").

(** Modelled from the spec: [get_handler] of
    [mindsdb.integrations.libs.handler_helpers] is not part of the source
    tree.  The spec has the lookup of the tag delegated to an external
    registry and failing with UnknownBackendType when the tag is
    unregistered, with a diagnostic that mentions the unresolved type.  A
    tag that is not a string is registered nowhere. *)
Definition registry_get_handler (tag : pyval) : outcome Cls :=
  match tag with
  | PStr t =>
      match registry t with
      | Some cls => Ok cls
      | None => Raise (UnknownBackendType t)
      end
  | _ => Raise (UnknownBackendType (type_name tag))
  end.

End Registry.

(** ** The caller side of the query codec *)

Section Caller.

Context {Q : Type}.

(** [pickle.dumps], which refuses some objects, and [json.dumps]. *)
Variable pickle_dumps : Q -> outcome bytes.
Variable json_dumps : pyval -> bytes.

(** The JSON object a caller sends to the view [query]. *)
Definition query_document (handler_type : string)
  (handler_kwargs : list (string * pyval)) (b64_query : string) : pyval :=
  PDict [ ("handler_type", PStr handler_type);
          ("handler_kwargs", PDict handler_kwargs);
          ("query", PStr b64_query) ].

(** Modelled from the spec: the caller of the view [query] is not part of
    the source tree.  The spec has it serialize the query object into
    bytes, base64-encode the bytes into a UTF-8 string, and embed that
    string as the [query] field of a JSON object that also carries the
    Connection Descriptor. *)
Definition encode_query (handler_type : string)
  (handler_kwargs : list (string * pyval)) (q : Q) : outcome bytes :=
  match pickle_dumps q with
  | Ok s_query =>
      let b64_query := string_of_list_byte (Base64.b64encode s_query) in
      Ok (json_dumps (query_document handler_type handler_kwargs b64_query))
  | Raise e => Raise e
  end.

End Caller.

(** ** A stub runtime *)

Module Stub.

(** The one handler class of the stub registry. *)
Inductive stub_class : Type := StubHandler.

Definition registry (tag : string) : option stub_class :=
  if String.eqb tag "stub" then Some StubHandler else None.

(** The query objects of the stub are statements, serialized as their
    text after a marker byte. *)
Definition stub_pickle_dumps (q : string) : outcome bytes :=
  Ok (x80 :: list_byte_of_string q).

Definition stub_pickle_loads (data : bytes) : outcome string :=
  match data with
  | x80 :: rest => Ok (string_of_list_byte rest)
  | _ => Raise (mk_exn "_pickle.UnpicklingError" "invalid load key")
  end.

Definition dq : string := String "034" "".

Local Open Scope string_scope.

Fixpoint json_text (v : pyval) : string :=
  match v with
  | PNone => "null"
  | PBool true => "true"
  | PBool false => "false"
  | PInt z => NilZero.string_of_int (Z.to_int z)
  | PFloat literal => literal
  | PStr s => dq ++ s ++ dq
  | PList items =>
      "[" ++ (fix go (l : list pyval) : string :=
                match l with
                | [] => ""
                | [x] => json_text x
                | x :: rest => json_text x ++ ", " ++ go rest
                end) items ++ "]"
  | PDict items =>
      "{" ++ (fix go (l : list (string * pyval)) : string :=
                match l with
                | [] => ""
                | [(k, x)] => dq ++ k ++ dq ++ ": " ++ json_text x
                | (k, x) :: rest =>
                    dq ++ k ++ dq ++ ": " ++ json_text x ++ ", " ++ go rest
                end) items ++ "}"
  end.

Definition stub_json_dumps (v : pyval) : bytes := list_byte_of_string (json_text v).

Definition descriptor (tag : string) (more : list (string * pyval)) : pyval :=
  PDict (("handler_type", PStr tag) :: ("handler_kwargs", PDict []) :: more).

(** The statement the stub handler does not know the table of. *)
Definition select_t : string := "SELECT * FROM t".

Definition b64_of (q : string) : string :=
  Eval vm_compute in
    match stub_pickle_dumps q with
    | Ok data => string_of_list_byte (Base64.b64encode data)
    | Raise _ => ""
    end.

(** The documents the stub parser knows. *)
Definition documents : list pyval :=
  [ descriptor "stub" [];
    descriptor "stub" [("query", PStr "SELECT 1")];
    descriptor "stub" [("query", PStr (b64_of "SELECT 1"))];
    query_document "stub" [] (b64_of select_t);
    descriptor "nosuchdb" [];
    descriptor "nosuchdb" [("query", PStr "a")];
    descriptor "stub" [("query", PStr "a")];
    descriptor "stub" [("query", PStr "AAAA")];
    PList [] ].

(** A parser that knows the texts of [documents] and nothing else. *)
Definition stub_json_loads (data : bytes) : outcome pyval :=
  match find (fun v => String.eqb (json_text v) (string_of_list_byte data))
             documents with
  | Some v => Ok v
  | None =>
      Raise (mk_exn "json.decoder.JSONDecodeError"
                    "Expecting value: line 1 column 1 (char 0)")
  end.

Definition stub_flask_json (req : request) : outcome pyval :=
  match stub_json_loads (req_data req) with
  | Ok v => Ok v
  | Raise _ =>
      Raise (mk_exn "werkzeug.exceptions.BadRequest"
                    "400 Bad Request: Failed to decode JSON object")
  end.

Definition stub_frames_of (_ : exn) : string :=
  "  File <stub>, line 1, in view" ++ String "010" "".

Definition one_row : Response :=
  mk_Response TABLE None None (Some [[("1", PInt 1)]]).

(** The stub handler counts the calls it gets in the world; its
    connection check reports what the key [up] of its arguments says, and
    its [query] raises on the table it does not know. *)
#[export] Instance runtime
  : Runtime nat string stub_class (list (string * pyval)) := {|
  flask_json := stub_flask_json;
  json_loads := stub_json_loads;
  pickle_loads := stub_pickle_loads;
  frames_of := stub_frames_of;
  helpers_get_handler := registry_get_handler registry;
  construct := fun _ kwargs w => (Ok kwargs, w);
  handler_connect := fun _ w => (Ok tt, S w);
  handler_disconnect := fun _ w => (Ok tt, S w);
  handler_check_connection := fun h w =>
    (Ok (mk_StatusResponse
           (match lookup "up" h with Some (PBool false) => false | _ => true end)
           None), S w);
  handler_native_query := fun _ _ w => (Ok one_row, S w);
  handler_query := fun _ q w =>
    (if String.eqb q select_t
     then Raise (mk_exn "Exception" "unknown table t")
     else Ok one_row, S w);
  handler_get_tables := fun _ w => (Ok one_row, S w);
  handler_get_columns := fun _ _ w => (Ok one_row, S w)
|}.

Definition request_of (method path : string) (doc : pyval) : request :=
  mk_request method path "application/json" (stub_json_dumps doc).

Definition start : state nat := mk_state 0 0.

(** A request to [query] that names an unregistered type and carries a
    query that is not base64. *)
Definition bad_query_of_unknown_type : request :=
  request_of "GET" "/query" (descriptor "nosuchdb" [("query", PStr "a")]).

End Stub.

(** ** A runtime with a canned body *)

Module Canned.

(** The stub runtime with parsers that give the document [doc] whatever
    the request holds. *)
Definition runtime (doc : pyval)
  : Runtime nat string Stub.stub_class (list (string * pyval)) := {|
  flask_json := fun _ => Ok doc;
  json_loads := fun _ => Ok doc;
  pickle_loads := Stub.stub_pickle_loads;
  frames_of := Stub.stub_frames_of;
  helpers_get_handler := registry_get_handler Stub.registry;
  construct := fun _ kwargs w => (Ok kwargs, w);
  handler_connect := fun _ w => (Ok tt, S w);
  handler_disconnect := fun _ w => (Ok tt, S w);
  handler_check_connection := fun h w =>
    (Ok (mk_StatusResponse
           (match lookup "up" h with Some (PBool false) => false | _ => true end)
           None), S w);
  handler_native_query := fun _ _ w => (Ok Stub.one_row, S w);
  handler_query := fun _ _ w => (Ok Stub.one_row, S w);
  handler_get_tables := fun _ w => (Ok Stub.one_row, S w);
  handler_get_columns := fun _ _ w => (Ok Stub.one_row, S w)
|}.

(** A request of [get_columns] for a table named by a number. *)
Definition numbered_table : pyval :=
  Stub.descriptor "stub" [("table", PInt 7)].

(** A request whose handler reports a failed check without raising. *)
Definition down : pyval :=
  PDict [ ("handler_type", PStr "stub");
          ("handler_kwargs", PDict [("up", PBool false)]) ].

Definition any_request : request := mk_request "GET" "/" "" [].

End Canned.

(** * Facts *)

(** ** Base64 *)

Module Base64Facts.
Import Base64.
Local Open Scope N_scope.

(** The numbers below [k], for checks by enumeration. *)
Definition below (k : nat) : list N := map N.of_nat (seq 0 k).

Lemma in_below (k : nat) (n : N) : n < N.of_nat k -> In n (below k).
Proof.
  intro Hn. unfold below. apply in_map_iff.
  exists (N.to_nat n). split; [apply N2Nat.id | apply in_seq; lia].
Qed.

Lemma check1 (k : nat) (P : N -> bool) :
  forallb P (below k) = true -> forall x, x < N.of_nat k -> P x = true.
Proof.
  intros Hall x Hx. rewrite forallb_forall in Hall. auto using in_below.
Qed.

Lemma check2 (k1 k2 : nat) (P : N -> N -> bool) :
  forallb (fun x => forallb (P x) (below k2)) (below k1) = true ->
  forall x y, x < N.of_nat k1 -> y < N.of_nat k2 -> P x y = true.
Proof.
  intros Hall x y Hx Hy.
  apply (check1 k2 (P x)); [|assumption].
  apply (check1 k1 (fun x => forallb (P x) (below k2))); assumption.
Qed.

Lemma check3 (k1 k2 k3 : nat) (P : N -> N -> N -> bool) :
  forallb (fun x => forallb (fun y => forallb (P x y) (below k3)) (below k2))
          (below k1) = true ->
  forall x y z,
    x < N.of_nat k1 -> y < N.of_nat k2 -> z < N.of_nat k3 -> P x y z = true.
Proof.
  intros Hall x y z Hx Hy Hz.
  apply (check2 k2 k3 (P x)); [|assumption|assumption].
  apply (check1 k1 (fun x => forallb (fun y => forallb (P x y) (below k3))
                                     (below k2))); assumption.
Qed.

(** The two tables are inverse of each other on 6-bit groups, and no
    group is written as the pad character. *)
Lemma table_a2b_b2a (v : N) :
  v < 64 ->
  table_a2b_base64 (table_b2a_base64 v) = Some v
  /\ Byte.eqb (table_b2a_base64 v) pad = false.
Proof.
  intro Hv.
  assert (Hc : (match table_a2b_base64 (table_b2a_base64 v) with
                | Some w => w =? v
                | None => false
                end && negb (Byte.eqb (table_b2a_base64 v) pad))%bool = true).
  { revert v Hv.
    apply (check1 64 (fun v =>
             (match table_a2b_base64 (table_b2a_base64 v) with
              | Some w => w =? v
              | None => false
              end && negb (Byte.eqb (table_b2a_base64 v) pad))%bool)).
    vm_compute. reflexivity. }
  apply andb_true_iff in Hc. destruct Hc as [Hc1 Hc2].
  destruct (table_a2b_base64 (table_b2a_base64 v)) as [w|]; [|discriminate].
  apply N.eqb_eq in Hc1. subst w. split; [reflexivity|].
  now apply negb_true_iff in Hc2.
Qed.

Lemma to_N_below (a : byte) : Byte.to_N a < N.of_nat 256.
Proof. pose proof (Byte.to_N_bounded a). simpl. lia. Qed.

Lemma to_uchar_to_N (a : byte) : to_uchar (Byte.to_N a) = a.
Proof. destruct a; reflexivity. Qed.

(** The bit arithmetic of a group of three bytes [a], [b], [c], written
    as four 6-bit groups and read back: each fact is checked on all the
    values of the bytes it mentions. *)

Ltac finish_check H :=
  cbv beta in H;
  first [ apply N.eqb_eq; apply H; assumption
        | apply N.ltb_lt; apply H; assumption ].

Ltac enumerate1 k P :=
  intros;
  let H := fresh "Hcheck" in
  assert (H : forall x, x < N.of_nat k -> P x = true)
    by (apply (check1 k P); vm_compute; reflexivity);
  finish_check H.

Ltac enumerate2 k1 k2 P :=
  intros;
  let H := fresh "Hcheck" in
  assert (H : forall x y, x < N.of_nat k1 -> y < N.of_nat k2 -> P x y = true)
    by (apply (check2 k1 k2 P); vm_compute; reflexivity);
  finish_check H.

Ltac enumerate3 k1 k2 k3 P :=
  intros;
  let H := fresh "Hcheck" in
  assert (H : forall x y z,
             x < N.of_nat k1 -> y < N.of_nat k2 -> z < N.of_nat k3 ->
             P x y z = true)
    by (apply (check3 k1 k2 k3 P); vm_compute; reflexivity);
  finish_check H.

Lemma group0_below (a : N) : a < 256 -> N.shiftr a 2 < 64.
Proof. enumerate1 256%nat (fun a : N => N.shiftr a 2 <? 64). Qed.

Lemma group1_below (a b : N) :
  a < 256 -> b < 256 ->
  N.lor (N.shiftl (N.land a 3) 4) (N.shiftr b 4) < 64.
Proof.
  enumerate2 256%nat 256%nat
    (fun a b : N => N.lor (N.shiftl (N.land a 3) 4) (N.shiftr b 4) <? 64).
Qed.

Lemma group2_below (b c : N) :
  b < 256 -> c < 256 ->
  N.lor (N.shiftl (N.land b 15) 2) (N.shiftr c 6) < 64.
Proof.
  enumerate2 256%nat 256%nat
    (fun b c : N => N.lor (N.shiftl (N.land b 15) 2) (N.shiftr c 6) <? 64).
Qed.

Lemma group3_below (c : N) : c < 256 -> N.land c 63 < 64.
Proof. enumerate1 256%nat (fun c : N => N.land c 63 <? 64). Qed.

Lemma last_group1_below (a : N) : a < 256 -> N.shiftl (N.land a 3) 4 < 64.
Proof. enumerate1 256%nat (fun a : N => N.shiftl (N.land a 3) 4 <? 64). Qed.

Lemma last_group2_below (b : N) : b < 256 -> N.shiftl (N.land b 15) 2 < 64.
Proof. enumerate1 256%nat (fun b : N => N.shiftl (N.land b 15) 2 <? 64). Qed.

Lemma byte0_back (a b : N) :
  a < 256 -> b < 256 ->
  N.lor (N.shiftl (N.shiftr a 2) 2)
        (N.shiftr (N.lor (N.shiftl (N.land a 3) 4) (N.shiftr b 4)) 4) = a.
Proof.
  enumerate2 256%nat 256%nat
    (fun a b : N =>
       N.lor (N.shiftl (N.shiftr a 2) 2)
             (N.shiftr (N.lor (N.shiftl (N.land a 3) 4) (N.shiftr b 4)) 4)
       =? a).
Qed.

Lemma last_byte0_back (a : N) :
  a < 256 ->
  N.lor (N.shiftl (N.shiftr a 2) 2) (N.shiftr (N.shiftl (N.land a 3) 4) 4) = a.
Proof.
  enumerate1 256%nat
    (fun a : N =>
       N.lor (N.shiftl (N.shiftr a 2) 2)
             (N.shiftr (N.shiftl (N.land a 3) 4) 4) =? a).
Qed.

(** The middle byte depends on [a] through its two low bits [x] and on
    [c] through its two high bits [y] only. *)
Lemma byte1_back_bits (x b y : N) :
  x < 4 -> b < 256 -> y < 4 ->
  N.lor (N.shiftl (N.land (N.lor (N.shiftl x 4) (N.shiftr b 4)) 15) 4)
        (N.shiftr (N.lor (N.shiftl (N.land b 15) 2) y) 2) = b.
Proof.
  enumerate3 4%nat 256%nat 4%nat
    (fun x b y : N =>
       N.lor (N.shiftl (N.land (N.lor (N.shiftl x 4) (N.shiftr b 4)) 15) 4)
             (N.shiftr (N.lor (N.shiftl (N.land b 15) 2) y) 2) =? b).
Qed.

Lemma low2_below (a : N) : a < 256 -> N.land a 3 < 4.
Proof. enumerate1 256%nat (fun a : N => N.land a 3 <? 4). Qed.

Lemma high2_below (c : N) : c < 256 -> N.shiftr c 6 < 4.
Proof. enumerate1 256%nat (fun c : N => N.shiftr c 6 <? 4). Qed.

Lemma byte1_back (a b c : N) :
  a < 256 -> b < 256 -> c < 256 ->
  N.lor (N.shiftl (N.land (N.lor (N.shiftl (N.land a 3) 4) (N.shiftr b 4))
                          15) 4)
        (N.shiftr (N.lor (N.shiftl (N.land b 15) 2) (N.shiftr c 6)) 2) = b.
Proof.
  intros Ha Hb Hc.
  apply byte1_back_bits; auto using low2_below, high2_below.
Qed.

Lemma last_byte1_back (a b : N) :
  a < 256 -> b < 256 ->
  N.lor (N.shiftl (N.land (N.lor (N.shiftl (N.land a 3) 4) (N.shiftr b 4))
                          15) 4)
        (N.shiftr (N.shiftl (N.land b 15) 2) 2) = b.
Proof.
  intros Ha Hb.
  rewrite <- (N.lor_0_r (N.shiftl (N.land b 15) 2)).
  apply byte1_back_bits; auto using low2_below. reflexivity.
Qed.

Lemma byte2_back (b c : N) :
  b < 256 -> c < 256 ->
  N.lor (N.shiftl (N.land (N.lor (N.shiftl (N.land b 15) 2) (N.shiftr c 6))
                          3) 6)
        (N.land c 63) = c.
Proof.
  enumerate2 256%nat 256%nat
    (fun b c : N =>
       N.lor (N.shiftl (N.land (N.lor (N.shiftl (N.land b 15) 2)
                                      (N.shiftr c 6)) 3) 6)
             (N.land c 63) =? c).
Qed.

(** One step of the loop on the character of a 6-bit group. *)
Lemma a2b_loop_group_char (v : N) (rest : bytes) (quad_pos leftchar pads : N)
  (out : bytes) :
  v < 64 ->
  a2b_loop (table_b2a_base64 v :: rest) quad_pos leftchar pads out =
  match quad_pos with
  | 0 => a2b_loop rest 1 v 0 out
  | 1 =>
      a2b_loop rest 2 (N.land v 15) 0
        (out ++ [to_uchar (N.lor (N.shiftl leftchar 2) (N.shiftr v 4))])
  | 2 =>
      a2b_loop rest 3 (N.land v 3) 0
        (out ++ [to_uchar (N.lor (N.shiftl leftchar 4) (N.shiftr v 2))])
  | _ =>
      a2b_loop rest 0 0 0 (out ++ [to_uchar (N.lor (N.shiftl leftchar 6) v)])
  end.
Proof.
  intro Hv. cbn [a2b_loop].
  destruct (table_a2b_b2a v Hv) as [-> ->]. reflexivity.
Qed.

Lemma a2b_loop_pad (rest : bytes) (quad_pos leftchar pads : N) (out : bytes) :
  a2b_loop (pad :: rest) quad_pos leftchar pads out =
  if 2 <=? quad_pos then
    if 4 <=? quad_pos + (pads + 1) then Ok out
    else a2b_loop rest quad_pos leftchar (pads + 1) out
  else a2b_loop rest quad_pos leftchar pads out.
Proof. reflexivity. Qed.

(** The loop on the four characters of a full group. *)
Lemma a2b_loop_group (v0 v1 v2 v3 : N) (rest out : bytes) :
  v0 < 64 -> v1 < 64 -> v2 < 64 -> v3 < 64 ->
  a2b_loop (table_b2a_base64 v0 :: table_b2a_base64 v1
              :: table_b2a_base64 v2 :: table_b2a_base64 v3 :: rest)
           0 0 0 out =
  a2b_loop rest 0 0 0
    (out ++ [ to_uchar (N.lor (N.shiftl v0 2) (N.shiftr v1 4));
              to_uchar (N.lor (N.shiftl (N.land v1 15) 4) (N.shiftr v2 2));
              to_uchar (N.lor (N.shiftl (N.land v2 3) 6) v3) ]).
Proof.
  intros H0 H1 H2 H3.
  rewrite (a2b_loop_group_char v0) by assumption. cbv iota.
  rewrite (a2b_loop_group_char v1) by assumption. cbv iota.
  rewrite (a2b_loop_group_char v2) by assumption. cbv iota.
  rewrite (a2b_loop_group_char v3) by assumption. cbv iota.
  rewrite <- !app_assoc. reflexivity.
Qed.

(** The loop on a last group of three characters and a pad. *)
Lemma a2b_loop_last3 (v0 v1 v2 : N) (out : bytes) :
  v0 < 64 -> v1 < 64 -> v2 < 64 ->
  a2b_loop [table_b2a_base64 v0; table_b2a_base64 v1; table_b2a_base64 v2;
            pad] 0 0 0 out =
  Ok (out ++ [ to_uchar (N.lor (N.shiftl v0 2) (N.shiftr v1 4));
               to_uchar (N.lor (N.shiftl (N.land v1 15) 4) (N.shiftr v2 2)) ]).
Proof.
  intros H0 H1 H2.
  rewrite (a2b_loop_group_char v0) by assumption. cbv iota.
  rewrite (a2b_loop_group_char v1) by assumption. cbv iota.
  rewrite (a2b_loop_group_char v2) by assumption. cbv iota.
  rewrite a2b_loop_pad, <- !app_assoc. reflexivity.
Qed.

(** The loop on a last group of two characters and two pads. *)
Lemma a2b_loop_last2 (v0 v1 : N) (out : bytes) :
  v0 < 64 -> v1 < 64 ->
  a2b_loop [table_b2a_base64 v0; table_b2a_base64 v1; pad; pad] 0 0 0 out =
  Ok (out ++ [ to_uchar (N.lor (N.shiftl v0 2) (N.shiftr v1 4)) ]).
Proof.
  intros H0 H1.
  rewrite (a2b_loop_group_char v0) by assumption. cbv iota.
  rewrite (a2b_loop_group_char v1) by assumption. cbv iota.
  rewrite !a2b_loop_pad. reflexivity.
Qed.

Lemma list_ind3 {A : Type} (P : list A -> Prop) :
  P [] -> (forall a, P [a]) -> (forall a b, P [a; b]) ->
  (forall a b c l, P l -> P (a :: b :: c :: l)) ->
  forall l, P l.
Proof.
  intros H0 H1 H2 H3 l.
  enough (P l /\ (forall a, P (a :: l)) /\ (forall a b, P (a :: b :: l)))
    by tauto.
  induction l as [|x l [IH0 [IH1 IH2]]]; auto.
Qed.

(** Decoding what the encoder wrote gives the bytes encoded, after the
    bytes already written. *)
Lemma a2b_loop_b64encode (data out : bytes) :
  a2b_loop (b64encode data) 0 0 0 out = Ok (out ++ data).
Proof.
  revert out. induction data as [|a|a b|a b c data IH] using list_ind3;
    intro out.
  - cbn. now rewrite app_nil_r.
  - pose proof (to_N_below a) as Ha. cbn [b64encode].
    rewrite a2b_loop_last2 by auto using group0_below, last_group1_below.
    rewrite last_byte0_back by assumption.
    now rewrite to_uchar_to_N.
  - pose proof (to_N_below a) as Ha. pose proof (to_N_below b) as Hb.
    cbn [b64encode].
    rewrite a2b_loop_last3
      by auto using group0_below, group1_below, last_group2_below.
    rewrite byte0_back, last_byte1_back by assumption.
    now rewrite !to_uchar_to_N.
  - pose proof (to_N_below a) as Ha. pose proof (to_N_below b) as Hb.
    pose proof (to_N_below c) as Hc.
    cbn [b64encode].
    rewrite a2b_loop_group
      by auto using group0_below, group1_below, group2_below, group3_below.
    rewrite byte0_back, byte1_back, byte2_back by assumption.
    rewrite !to_uchar_to_N, IH, <- !app_assoc. reflexivity.
Qed.

(** [base64.b64decode(base64.b64encode(data)) == data] *)
Lemma b64decode_b64encode (data : bytes) :
  b64decode (b64encode data) = Ok data.
Proof. unfold b64decode. now rewrite a2b_loop_b64encode. Qed.

End Base64Facts.

(** ** Text *)

Lemma mentions_unfold (needle hay : string) :
  mentions needle hay
  = (String.prefix needle hay
     || match hay with
        | EmptyString => false
        | String _ rest => mentions needle rest
        end)%bool.
Proof. destruct hay; reflexivity. Qed.

Lemma prefix_append (s t : string) : String.prefix s (s ++ t) = true.
Proof.
  induction s as [|c s IH]; cbn; [now destruct t|].
  destruct (ascii_dec c c); [assumption|congruence].
Qed.

Lemma mentions_here (needle rest : string) :
  mentions needle (needle ++ rest) = true.
Proof. rewrite mentions_unfold, prefix_append. reflexivity. Qed.

Lemma mentions_later (needle : string) (c : ascii) (hay : string) :
  mentions needle hay = true -> mentions needle (String c hay) = true.
Proof. intro Hm. rewrite mentions_unfold, Hm. apply orb_true_r. Qed.

Lemma mentions_after (needle before hay : string) :
  mentions needle hay = true -> mentions needle (before ++ hay) = true.
Proof.
  intro Hm. induction before as [|c before IH]; cbn [append];
    auto using mentions_later.
Qed.

Lemma prefix_append_more (s t more : string) :
  String.prefix s t = true -> String.prefix s (t ++ more) = true.
Proof.
  revert t. induction s as [|c s IH]; intros [|d t] Hp; cbn in *;
    try discriminate; try (now destruct more).
  destruct (ascii_dec c d); [auto|discriminate].
Qed.

Lemma mentions_before (needle hay after : string) :
  mentions needle hay = true -> mentions needle (hay ++ after) = true.
Proof.
  induction hay as [|c hay IH]; rewrite mentions_unfold; intro Hm;
    apply orb_true_iff in Hm; destruct Hm as [Hp|Hm]; try discriminate;
    rewrite mentions_unfold.
  - now rewrite (prefix_append_more _ _ after Hp).
  - now rewrite (prefix_append_more _ _ after Hp).
  - cbn [append]. rewrite (IH Hm). apply orb_true_r.
Qed.

(** The traceback of the exception of the resolver names the tag. *)
Lemma format_exc_mentions_unknown_type (frames : exn -> string) (ty : string) :
  mentions ty (format_exc frames (UnknownBackendType ty)) = true.
Proof.
  unfold format_exc, UnknownBackendType.
  cbn [append exc_text exc_class String.eqb].
  repeat first [ apply mentions_here
               | apply mentions_later
               | apply mentions_before; solve [apply mentions_here]
               | apply mentions_after ].
Qed.

(** ** The views *)

Ltac unfold_views :=
  unfold view_function, index, connect, disconnect, check_connection,
    native_query, query, get_tables, get_columns, connect_try,
    disconnect_try, check_connection_try, native_query_try, query_try,
    get_tables_try, get_columns_try, decode_query, get_handler,
    request_json, get_data, instantiate, invoke, try_except, bind, pure_call,
    eval, ret, result_of, state_of, trace_of in *.

(** Case analysis on the call a view is stuck on: the innermost scrutinee
    of the goal. *)
Ltac break_inner :=
  match goal with
  | |- context [match ?x with _ => _ end] =>
      lazymatch x with
      | context [match _ with _ => _ end] => fail
      | _ => destruct x eqn:?
      end
  end.

Ltac run_view := unfold_views; repeat (cbn; break_inner); cbn.

Ltac invert_ok :=
  repeat match goal with
    | Hx : Ok _ = Ok _ |- _ => inversion Hx; subst; clear Hx
    | Hx : (_, _) = (_, _) |- _ => inversion Hx; subst; clear Hx
    | Hx : Ok _ = Raise _ |- _ => discriminate Hx
    | Hx : Raise _ = Ok _ |- _ => discriminate Hx
    end.

(** Membership in a trace that ends with known events. *)
Ltac find_event :=
  cbn; repeat first [ left; reflexivity | apply in_or_app; right | right ].

Section ViewFacts.

Context {W Q Cls H : Type} {R : Runtime W Q Cls H}.

Lemma kwargs_of_ok (v : pyval) (kwargs : list (string * pyval)) :
  kwargs_of v = Ok kwargs -> v = PDict kwargs.
Proof. destruct v; cbn; intro Hk; now inversion Hk. Qed.

(** Every view but [native_query] answers: no exception leaves it. *)
Lemma guarded_views_answer (v : view_name) (req : request) (s : state W) :
  v <> v_native_query ->
  exists r, result_of (view_function v req s) = Ok r.
Proof.
  intro Hv. destruct v; try congruence; clear Hv; run_view; eauto.
Qed.

(** C10: a query-shaped view that catches an exception, one of its
    [try] blocks raising it, answers with the error response of that
    exception; a query-shaped view that answers with a status other than
    200 caught an exception and answers with its error response; and an
    error response has status 500 and is a Query Response of type ERROR
    whose error code is 1 and whose error message is the formatted
    traceback of the exception, a text that is not empty. *)
Theorem caught_failure_is_error_code_1
  (v : view_name) (req : request) (s : state W) :
  query_shaped v = true ->
  (forall e : exn,
      caught v req s e ->
      result_of (view_function v req s) = Ok (error_response e))
  /\ (forall (b : body) (code : Z),
        result_of (view_function v req s) = Ok (b, code) ->
        code <> 200%Z ->
        exists e : exn, caught v req s e /\ (b, code) = error_response e)
  /\ (forall e : exn,
        exists r : Response,
          error_response e = (QueryJson r, 500%Z)
          /\ resp_type r = ERROR
          /\ error_code r = Some 1%Z
          /\ error_message r = Some (format_exc frames_of e)
          /\ format_exc frames_of e <> ""%string).
Proof.
  intro Hv. split; [|split].
  - intros e Hc.
    destruct v; try discriminate Hv; clear Hv; cbn in Hc;
      unfold view_function, get_tables, get_columns, native_query, query,
        request_json, get_data, try_except, bind, pure_call, ret, result_of,
        state_of in *.
    + destruct (get_tables_try req s) as [[[r|e0] s1] t1]; cbn in *;
        now inversion Hc.
    + destruct (get_columns_try req s) as [[[r|e0] s1] t1]; cbn in *;
        now inversion Hc.
    + destruct Hc as (j & q & Hj & Hq & Hc). rewrite Hj. cbn. rewrite Hq.
      cbn. destruct (native_query_try req q s) as [[[r|e0] s1] t1]; cbn in *;
        now inversion Hc.
    + cbn. destruct (decode_query req s) as [[[[j q]|e0] s1] t1]; cbn in *.
      * destruct Hc as [Hc | (j' & q' & Hd & Hc)]; [discriminate Hc|].
        inversion Hd; subst j' q'.
        destruct (query_try j q s1) as [[[r|e1] s2] t2]; cbn in *;
          now inversion Hc.
      * destruct Hc as [Hc | (j' & q' & Hd & Hc)]; [|discriminate Hd].
        now inversion Hc.
  - intros b code Hr Hc.
    destruct v; try discriminate Hv; clear Hv; cbn;
      unfold view_function, get_tables, get_columns, native_query, query,
        request_json, get_data, try_except, bind, pure_call, ret, result_of,
        state_of in *.
    + destruct (get_tables_try req s) as [[[r|e0] s1] t1] eqn:Ht; cbn in *.
      * revert Ht. unfold get_tables_try, request_json, bind, pure_call, ret,
          invoke.
        repeat (cbn; break_inner); cbn; intro Ht; invert_ok; now elim Hc.
      * inversion Hr; subst. exists e0. split; reflexivity.
    + destruct (get_columns_try req s) as [[[r|e0] s1] t1] eqn:Ht; cbn in *.
      * revert Ht. unfold get_columns_try, request_json, bind, pure_call,
          ret, invoke.
        repeat (cbn; break_inner); cbn; intro Ht; invert_ok; now elim Hc.
      * inversion Hr; subst. exists e0. split; reflexivity.
    + destruct (flask_json req) as [j|] eqn:Hj; cbn in *; [|discriminate].
      destruct (dict_get j "query") as [q|] eqn:Hq; cbn in *; [|discriminate].
      destruct (native_query_try req q s) as [[[r|e0] s1] t1] eqn:Ht;
        cbn in *.
      * revert Ht. unfold native_query_try, request_json, bind, pure_call,
          ret, invoke.
        repeat (cbn; break_inner); cbn; intro Ht; invert_ok; now elim Hc.
      * inversion Hr; subst. exists e0. split; [|reflexivity].
        exists j, q. rewrite Ht. auto.
    + cbn in Hr.
      destruct (decode_query req s) as [[[[j q]|e0] s1] t1]; cbn in *.
      * destruct (query_try j q s1) as [[[r|e1] s2] t2] eqn:Ht; cbn in *.
        -- revert Ht. unfold query_try, bind, ret, invoke.
           repeat (cbn; break_inner); cbn; intro Ht; invert_ok; now elim Hc.
        -- inversion Hr; subst. exists e1. split; [|reflexivity].
           right. exists j, q. rewrite Ht. auto.
      * inversion Hr; subst. exists e0. split; [now left|reflexivity].
  - intro e. eexists. repeat split. discriminate.
Qed.

(** C4: [check_connection] always answers with a Status Response and a
    status of 200 or 500; when its [try] block raises an exception, the
    status is 500 and the response has success false and the formatted
    traceback as its error message; and when the descriptor of the
    request resolves to a handler, the response has success true exactly
    when the [check_connection] of that handler returns a status with
    success true. *)
Theorem check_connection_reports_the_check (req : request) (s : state W) :
  exists (sr : StatusResponse) (code : Z),
    result_of (check_connection req s) = Ok (StatusJson sr, code)
    /\ (code = 200%Z \/ code = 500%Z)
    /\ (forall e : exn,
          result_of (check_connection_try req s) = Raise e ->
          code = 500%Z
          /\ sr = new_StatusResponse false (format_exc frames_of e)
          /\ success sr = false
          /\ status_error_message sr <> None)
    /\ (forall (j : pyval) (h : handle H) (s1 : state W)
               (t1 : list (event Q Cls)),
          flask_json req = Ok j ->
          get_handler j s = (Ok h, s1, t1) ->
          (success sr = true <->
           exists (sr0 : StatusResponse) (w : W),
             handler_check_connection (obj h) (world s1) = (Ok sr0, w)
             /\ success sr0 = true)).
Proof.
  unfold check_connection, check_connection_try, request_json, try_except,
    bind, pure_call, result_of.
  destruct (flask_json req) as [j0|e0] eqn:Hj0; cbn.
  - destruct (get_handler j0 s) as [[[h0|e1] s0] t0] eqn:Hh0; cbn.
    + unfold invoke, ret.
      destruct (handler_check_connection (obj h0) (world s0))
        as [[sr0|e2] w0] eqn:Hc0; cbn.
      * exists sr0, 200%Z.
        split; [reflexivity|]. split; [auto|]. split; [discriminate|].
        intros j h s1 t1 Hj Hh. inversion Hj; subst j.
        rewrite Hh0 in Hh. inversion Hh; subst h s1 t1.
        rewrite Hc0. split.
        -- eauto.
        -- intros (sr1 & w1 & Hq & Hs). now inversion Hq; subst.
      * exists (new_StatusResponse false (format_exc frames_of e2)), 500%Z.
        split; [reflexivity|]. split; [auto|]. split.
        -- intros e He. inversion He; subst e.
           repeat split; discriminate.
        -- intros j h s1 t1 Hj Hh. inversion Hj; subst j.
           rewrite Hh0 in Hh. inversion Hh; subst h s1 t1.
           rewrite Hc0. split.
           ++ discriminate.
           ++ intros (sr1 & w1 & Hq & Hs). discriminate Hq.
    + exists (new_StatusResponse false (format_exc frames_of e1)), 500%Z.
      split; [reflexivity|]. split; [auto|]. split.
      * intros e He. inversion He; subst e. repeat split; discriminate.
      * intros j h s1 t1 Hj Hh. inversion Hj; subst j.
        rewrite Hh0 in Hh. discriminate Hh.
  - exists (new_StatusResponse false (format_exc frames_of e0)), 500%Z.
    split; [reflexivity|]. split; [auto|]. split.
    + intros e He. inversion He; subst e. repeat split; discriminate.
    + intros j h s1 t1 Hj Hh. discriminate Hj.
Qed.

(** C2: when the decoding of the body fails at any step, [query] answers
    with status 500 and a Query Response of type ERROR that carries the
    formatted traceback as its error message; the state is left as it
    was, and no event of the view is a lookup of the handler class, a
    construction of a handler or a call of a handler. *)
Theorem query_decode_failure_is_reported
  (req : request) (s : state W) (e : exn) :
  decode_failure (req_data req) e ->
  exists (r : Response),
    result_of (query req s) = Ok (QueryJson r, 500%Z)
    /\ resp_type r = ERROR
    /\ error_message r = Some (format_exc frames_of e)
    /\ error_message r <> None
    /\ state_of (query req s) = s
    /\ existsb touches_handler (trace_of (query req s)) = false.
Proof.
  intros [Hj | j Hj Hq | j q Hj Hq He | j q b64 Hj Hq He Hb
          | j q b64 s_query Hj Hq He Hb Hp];
    unfold_views; cbn;
    repeat match goal with
      | Hx : _ = _ |- _ => rewrite Hx; cbn
      end;
    eexists; repeat split; discriminate.
Qed.

(** C9: when the body of the request is an object without a [table]
    field, [get_columns] raises nothing of its own: it resolves the
    handler, and if that succeeds it calls [get_columns] of the handler
    with [None] and answers with what the call gives; an exception of the
    resolution or of the call is reported as for any other request. *)
Theorem get_columns_without_table_passes_None
  (req : request) (s : state W) (items : list (string * pyval)) :
  flask_json req = Ok (PDict items) ->
  lookup "table" items = None ->
  match get_handler (PDict items) s with
  | (Ok h, s1, t1) =>
      trace_of (get_columns req s)
      = [EvRequestJson; EvGet "table"; EvRequestJson] ++ t1
          ++ [EvCall (obj_id h) (CallGetColumns PNone)]
      /\ result_of (get_columns req s)
         = match handler_get_columns (obj h) PNone (world s1) with
           | (Ok r, _) => Ok (QueryJson r, 200%Z)
           | (Raise e, _) => Ok (error_response e)
           end
  | (Raise e, s1, t1) =>
      get_columns req s
      = (Ok (error_response e), s1,
         [EvRequestJson; EvGet "table"; EvRequestJson] ++ t1)
  end.
Proof.
  intros Hj Ht.
  unfold get_columns, get_columns_try, request_json, try_except, bind,
    pure_call.
  rewrite Hj. cbn. rewrite Ht. cbn.
  destruct (get_handler (PDict items) s) as [[[h|e] s1] t1]; cbn.
  - unfold invoke, ret, result_of, trace_of.
    destruct (handler_get_columns (obj h) PNone (world s1)) as [[r|e] w]; cbn;
      rewrite ?app_nil_r; auto.
  - unfold ret. now rewrite app_nil_r.
Qed.

(** C1, at the input that breaks it: [native_query] reads [request.json]
    and its field [query] before it enters its [try], so an exception of
    that reading leaves the view, and the dispatch of a POST to
    [/native_query] gives the framework the exception instead of a
    response. *)
Theorem native_query_lets_the_read_escape
  (req : request) (s : state W) (e : exn) :
  req_method req = "POST"%string ->
  req_path req = "/native_query"%string ->
  (flask_json req = Raise e
   \/ exists j, flask_json req = Ok j /\ dict_get j "query" = Raise e) ->
  result_of (native_query req s) = Raise e
  /\ fst (fst (dispatch_request DBHandlerWrapper_init req s)) = Escaped e.
Proof.
  intros Hm Hp Hread.
  assert (Hn : result_of (native_query req s) = Raise e).
  { destruct Hread as [Hj | (j & Hj & Hq)];
      unfold native_query, request_json, bind, pure_call, result_of;
      rewrite Hj; cbn; [reflexivity | now rewrite Hq]. }
  split; [assumption|].
  unfold dispatch_request. rewrite Hm, Hp.
  change (match_request DBHandlerWrapper_init "/native_query" "POST")
    with (Some v_native_query).
  cbn [view_function]. unfold result_of in Hn.
  destruct (native_query req s) as [[r s1] t]. cbn in *. now subst r.
Qed.

(** What a successful resolution did. *)
Lemma get_handler_ok (j : pyval) (s s1 : state W) (h : handle H)
  (t : list (event Q Cls)) :
  get_handler j s = (Ok h, s1, t) ->
  exists (tag : pyval) (cls : Cls) (kwargs : list (string * pyval)) (w : W),
    getitem j "handler_type" = Ok tag
    /\ helpers_get_handler tag = Ok cls
    /\ getitem j "handler_kwargs" = Ok (PDict kwargs)
    /\ construct cls kwargs (world s) = (Ok (obj h), w)
    /\ obj_id h = next_id s
    /\ s1 = mk_state w (S (next_id s))
    /\ t = [ EvGetItem "handler_type"; EvLookupClass tag;
             EvGetItem "handler_kwargs"; EvConstruct cls kwargs (next_id s) ].
Proof.
  unfold get_handler, instantiate, bind, pure_call, eval.
  destruct (getitem j "handler_type") as [tag|] eqn:Htag; cbn;
    [|discriminate].
  destruct (helpers_get_handler tag) as [cls|] eqn:Hcls; cbn; [|discriminate].
  destruct (getitem j "handler_kwargs") as [kw|] eqn:Hkw; cbn; [|discriminate].
  destruct (kwargs_of kw) as [kwargs|] eqn:Hkwargs; cbn; [|discriminate].
  apply kwargs_of_ok in Hkwargs. subst kw.
  destruct (construct cls kwargs (world s)) as [[o|] w] eqn:Hc; cbn;
    [|discriminate].
  intro Heq. inversion Heq; subst. cbn.
  exists tag, cls, kwargs, w. repeat split; assumption.
Qed.

(** C7: the steps of [query] come in one order, whatever the request:
    the steps the view took are a first part of [query_order].  When the
    view answers 200, every step went through: the body was parsed, its
    field [query] decoded and deserialized, the handler was then resolved
    from the same parsed body and its [query] called with the object
    decoded, and the body of the answer is what that call returned.
    Conversely, when every step goes through the view answers 200 with
    the result of the handler. *)
Theorem query_steps_in_order (req : request) (s : state W) :
  (exists rest, map step_of (trace_of (query req s)) ++ rest = query_order)
  /\ (forall b : body,
        result_of (query req s) = Ok (b, 200%Z) ->
        exists (j qv : pyval) (b64 s_query : bytes) (q : Q) (h : handle H)
               (s1 : state W) (t1 : list (event Q Cls)) (r : Response) (w : W),
          json_loads (req_data req) = Ok j
          /\ getitem j "query" = Ok qv
          /\ str_encode_utf8 qv = Ok b64
          /\ Base64.b64decode b64 = Ok s_query
          /\ pickle_loads s_query = Ok q
          /\ get_handler j s = (Ok h, s1, t1)
          /\ handler_query (obj h) q (world s1) = (Ok r, w)
          /\ b = QueryJson r
          /\ exists (tag : pyval) (cls : Cls)
                    (kwargs : list (string * pyval)),
              trace_of (query req s)
              = query_steps (req_data req) b64 s_query tag cls kwargs
                            (obj_id h) q)
  /\ (forall (j qv : pyval) (b64 s_query : bytes) (q : Q) (h : handle H)
             (s1 : state W) (t1 : list (event Q Cls)) (r : Response) (w : W),
        json_loads (req_data req) = Ok j ->
        getitem j "query" = Ok qv ->
        str_encode_utf8 qv = Ok b64 ->
        Base64.b64decode b64 = Ok s_query ->
        pickle_loads s_query = Ok q ->
        get_handler j s = (Ok h, s1, t1) ->
        handler_query (obj h) q (world s1) = (Ok r, w) ->
        result_of (query req s) = Ok (QueryJson r, 200%Z)).
Proof.
  split; [|split].
  - run_view; eexists; reflexivity.
  - intro b. unfold query, query_try, decode_query, get_data, try_except,
      bind, pure_call, ret, result_of, trace_of. cbn.
    destruct (json_loads (req_data req)) as [j|] eqn:Hj; cbn;
      [|discriminate].
    destruct (getitem j "query") as [qv|] eqn:Hqv; cbn; [|discriminate].
    destruct (str_encode_utf8 qv) as [b64|] eqn:Hb64; cbn; [|discriminate].
    destruct (Base64.b64decode b64) as [s_query|] eqn:Hsq; cbn;
      [|discriminate].
    destruct (pickle_loads s_query) as [q|] eqn:Hq; cbn; [|discriminate].
    destruct (get_handler j s) as [[[h|] s1] t1] eqn:Hh; cbn; [|discriminate].
    unfold invoke.
    destruct (handler_query (obj h) q (world s1)) as [[r|] w] eqn:Hr; cbn;
      [|discriminate].
    intro Hb. inversion Hb; subst b.
    exists j, qv, b64, s_query, q, h, s1, t1, r, w.
    do 8 (split; [auto|]).
    destruct (get_handler_ok j s s1 h t1 Hh)
      as (tag & cls & kwargs & w0 & _ & _ & _ & _ & Hid & _ & Ht1).
    exists tag, cls, kwargs. rewrite Ht1, Hid. reflexivity.
  - intros j qv b64 s_query q h s1 t1 r w Hj Hqv Hb64 Hsq Hq Hh Hr.
    unfold query, query_try, decode_query, get_data, try_except, bind,
      pure_call, ret, invoke, result_of.
    cbn. rewrite Hj. cbn. rewrite Hqv. cbn. rewrite Hb64. cbn.
    rewrite Hsq. cbn. rewrite Hq. cbn. rewrite Hh. cbn. rewrite Hr.
    reflexivity.
Qed.

(** A view constructs at most one handler, under the next identity. *)
Lemma view_constructs_at_most_once (v : view_name) (req : request)
  (s : state W) :
  (constructed (trace_of (view_function v req s)) = []
   /\ next_id (state_of (view_function v req s)) = next_id s)
  \/ (constructed (trace_of (view_function v req s)) = [next_id s]
      /\ next_id (state_of (view_function v req s)) = S (next_id s)).
Proof. destruct v; run_view; auto. Qed.

(** A view calls no handler but the one it constructed from the parsed
    body of its request. *)
Lemma view_calls_its_own_handler (v : view_name) (req : request)
  (s : state W) (id : nat) (c : call Q) :
  In (EvCall id c) (trace_of (view_function v req s)) ->
  exists (j tag : pyval) (cls : Cls) (kwargs : list (string * pyval)),
    parsed_body v req = Ok j
    /\ getitem j "handler_type" = Ok tag
    /\ helpers_get_handler tag = Ok cls
    /\ getitem j "handler_kwargs" = Ok (PDict kwargs)
    /\ In (EvConstruct cls kwargs id) (trace_of (view_function v req s))
    /\ id = next_id s.
Proof.
  destruct v; run_view; intro Hin;
    repeat (destruct Hin as [Hin|Hin]; try discriminate Hin);
    try contradiction;
    inversion Hin; subst;
    match goal with
    | Hk : kwargs_of _ = Ok _ |- _ => apply kwargs_of_ok in Hk; subst
    end;
    do 4 eexists; repeat split; eauto 20.
Qed.

Lemma called_in_constructed (v : view_name) (req : request) (s : state W) :
  incl (called (trace_of (view_function v req s)))
       (constructed (trace_of (view_function v req s))).
Proof. destruct v; run_view; auto using incl_refl, incl_nil_l. Qed.

(** The dispatch of a request constructs at most one handler, under the
    next identity, and calls no other. *)
Lemma dispatch_constructs_at_most_once (url_map : list rule) (req : request)
  (s : state W) :
  incl (called (snd (dispatch_request url_map req s)))
       (constructed (snd (dispatch_request url_map req s)))
  /\ ((constructed (snd (dispatch_request url_map req s)) = []
       /\ next_id (snd (fst (dispatch_request url_map req s))) = next_id s)
      \/ (constructed (snd (dispatch_request url_map req s)) = [next_id s]
          /\ next_id (snd (fst (dispatch_request url_map req s)))
             = S (next_id s))).
Proof.
  unfold dispatch_request.
  destruct (match_request url_map (req_path req) (req_method req)) as [v|];
    cbn; [|auto using incl_nil_l].
  pose proof (view_constructs_at_most_once v req s) as Hc.
  pose proof (called_in_constructed v req s) as Hi.
  unfold trace_of, state_of in *.
  destruct (view_function v req s) as [[[r|e] s1] t]; cbn in *; auto.
Qed.

(** The identities constructed while a list of requests is served start
    at the next identity and never repeat. *)
Lemma serve_constructs_fresh (url_map : list rule) (reqs : list request) :
  forall s : state W,
    Forall (fun id => next_id s <= id)
           (flat_map (fun seg => constructed (snd seg))
                     (serve url_map reqs s))
    /\ NoDup (flat_map (fun seg => constructed (snd seg))
                       (serve url_map reqs s))
    /\ Forall (fun seg => incl (called (snd seg)) (constructed (snd seg)))
              (serve url_map reqs s).
Proof.
  induction reqs as [|req reqs IH]; intro s; cbn.
  - repeat split; constructor.
  - destruct (dispatch_constructs_at_most_once url_map req s) as [Hi Hc].
    destruct (dispatch_request url_map req s) as [[r s1] t]. cbn in *.
    destruct (IH s1) as (Hge & Hnd & Hall).
    split; [|split].
    + apply Forall_app. split.
      * destruct Hc as [[-> _] | [-> _]]; repeat constructor.
      * eapply Forall_impl; [|exact Hge].
        cbn. intros id Hid. destruct Hc as [[_ Hn] | [_ Hn]]; lia.
    + destruct Hc as [[-> _] | [-> Hn]]; cbn; [assumption|].
      constructor; [|assumption].
      intro Hin. rewrite Forall_forall in Hge. apply Hge in Hin. lia.
    + constructor; assumption.
Qed.

(** With the type resolved and the arguments a mapping, [get_handler]
    is the call of the class on those arguments. *)
Lemma get_handler_resolved (j tag : pyval) (cls : Cls)
  (kwargs : list (string * pyval)) (s : state W) :
  getitem j "handler_type" = Ok tag ->
  helpers_get_handler tag = Ok cls ->
  getitem j "handler_kwargs" = Ok (PDict kwargs) ->
  get_handler j s
  = match construct cls kwargs (world s) with
    | (Ok o, w) =>
        (Ok (mk_handle (next_id s) o), mk_state w (S (next_id s)),
         [ EvGetItem "handler_type"; EvLookupClass tag;
           EvGetItem "handler_kwargs"; EvConstruct cls kwargs (next_id s) ])
    | (Raise e, w) =>
        (Raise e, mk_state w (S (next_id s)),
         [ EvGetItem "handler_type"; EvLookupClass tag;
           EvGetItem "handler_kwargs"; EvConstruct cls kwargs (next_id s) ])
    end.
Proof.
  intros Ht Hc Hk. unfold get_handler, instantiate, bind, pure_call, eval.
  rewrite Ht. cbn. rewrite Hc. cbn. rewrite Hk. cbn.
  destruct (construct cls kwargs (world s)) as [[o|e] w]; reflexivity.
Qed.

(** A body that decodes takes the first [try] block of [query] through
    its steps, with the state as it was. *)
Lemma decode_query_decoded (req : request) (s : state W) (j : pyval) (q : Q) :
  decode_body (req_data req) = Ok (j, q) ->
  exists t,
    decode_query req s = (Ok (j, q), s, t)
    /\ constructed t = [] /\ called t = []
    /\ (forall cls kwargs id, ~ In (EvConstruct cls kwargs id) t)
    /\ (forall id c, ~ In (EvCall id c) t).
Proof.
  unfold decode_body, decode_query, get_data, bind, pure_call, ret.
  cbn.
  destruct (json_loads (req_data req)) as [j0|]; cbn; [|discriminate].
  destruct (getitem j0 "query") as [qv|]; cbn; [|discriminate].
  destruct (str_encode_utf8 qv) as [b64|]; cbn; [|discriminate].
  destruct (Base64.b64decode b64) as [sq|]; cbn; [|discriminate].
  destruct (pickle_loads sq) as [q0|]; cbn; [|discriminate].
  intro Hd. inversion Hd; subst. eexists. split; [reflexivity|].
  repeat split; try reflexivity;
    intros; intro Hin;
    repeat (destruct Hin as [Hin|Hin]; try discriminate Hin); contradiction.
Qed.

(** A view that gets as far as the resolution with a type the registry
    resolves and arguments that are a mapping calls the class on those
    arguments, and then the capability of its name on the object built. *)
Lemma view_builds_its_handler (v : view_name) (req : request) (s : state W)
  (j tag : pyval) (cls : Cls) (kwargs : list (string * pyval)) :
  needs_handler v = true ->
  parsed_body v req = Ok j ->
  (v = v_query -> exists q, decode_body (req_data req) = Ok (j, q)) ->
  getitem j "handler_type" = Ok tag ->
  helpers_get_handler tag = Ok cls ->
  getitem j "handler_kwargs" = Ok (PDict kwargs) ->
  In (EvConstruct cls kwargs (next_id s)) (trace_of (view_function v req s))
  /\ constructed (trace_of (view_function v req s)) = [next_id s]
  /\ match construct cls kwargs (world s) with
     | (Ok o, w) =>
         exists c : call Q,
           own_call v req c
           /\ In (EvCall (next_id s) c) (trace_of (view_function v req s))
           /\ called (trace_of (view_function v req s)) = [next_id s]
           /\ state_of (view_function v req s)
              = mk_state (world_after c o w) (S (next_id s))
     | (Raise e, w) =>
         called (trace_of (view_function v req s)) = []
         /\ state_of (view_function v req s) = mk_state w (S (next_id s))
         /\ exists b : body,
              result_of (view_function v req s) = Ok (b, 500%Z)
              /\ diagnostic b = Some (format_exc frames_of e)
     end.
Proof.
  intros Hv Hj Hdec Ht Hc Hk.
  pose proof (get_handler_resolved j tag cls kwargs s Ht Hc Hk) as Hg.
  destruct v; try discriminate Hv; clear Hv; cbn in Hj.
  - (* connect *)
    clear Hdec.
    unfold view_function, connect, connect_try, request_json, try_except,
      bind, pure_call, invoke, ret, result_of, state_of, trace_of.
    rewrite Hj. cbn. rewrite Hg.
    destruct (construct cls kwargs (world s)) as [[o|e] w]; cbn.
    + destruct (handler_connect o w) as [[u|e] w1] eqn:Hcall; cbn;
        (split; [auto 10|]); (split; [reflexivity|]);
        exists CallConnect; cbn; rewrite Hcall; repeat split; auto 10.
    + split; [auto 10|]. split; [reflexivity|]. repeat split.
      eexists. split; reflexivity.
  - (* disconnect *)
    clear Hdec.
    unfold view_function, disconnect, disconnect_try, request_json,
      try_except, bind, pure_call, invoke, ret, result_of, state_of,
      trace_of.
    rewrite Hj. cbn. rewrite Hg.
    destruct (construct cls kwargs (world s)) as [[o|e] w]; cbn.
    + destruct (handler_disconnect o w) as [[u|e] w1] eqn:Hcall; cbn;
        (split; [auto 10|]); (split; [reflexivity|]);
        exists CallDisconnect; cbn; rewrite Hcall; repeat split; auto 10.
    + split; [auto 10|]. split; [reflexivity|]. repeat split.
      eexists. split; reflexivity.
  - (* check_connection *)
    clear Hdec.
    unfold view_function, check_connection, check_connection_try,
      request_json, try_except, bind, pure_call, invoke, ret, result_of,
      state_of, trace_of.
    rewrite Hj. cbn. rewrite Hg.
    destruct (construct cls kwargs (world s)) as [[o|e] w]; cbn.
    + destruct (handler_check_connection o w) as [[u|e] w1] eqn:Hcall; cbn;
        (split; [auto 10|]); (split; [reflexivity|]);
        exists CallCheckConnection; cbn; rewrite Hcall; repeat split;
        auto 10.
    + split; [auto 10|]. split; [reflexivity|]. repeat split.
      eexists. split; reflexivity.
  - (* get_tables *)
    clear Hdec.
    unfold view_function, get_tables, get_tables_try, request_json,
      try_except, bind, pure_call, invoke, ret, result_of, state_of,
      trace_of.
    rewrite Hj. cbn. rewrite Hg.
    destruct (construct cls kwargs (world s)) as [[o|e] w]; cbn.
    + destruct (handler_get_tables o w) as [[u|e] w1] eqn:Hcall; cbn;
        (split; [auto 10|]); (split; [reflexivity|]);
        exists CallGetTables; cbn; rewrite Hcall; repeat split; auto 10.
    + split; [auto 10|]. split; [reflexivity|]. repeat split.
      eexists. split; reflexivity.
  - (* get_columns *)
    clear Hdec.
    assert (Hd : exists table, dict_get j "table" = Ok table)
      by (destruct j; try discriminate Ht; cbn;
          destruct (lookup "table" items); eauto).
    destruct Hd as [table Hd].
    unfold view_function, get_columns, get_columns_try, request_json,
      try_except, bind, pure_call, invoke, ret, result_of, state_of,
      trace_of.
    rewrite Hj. cbn. rewrite Hd. cbn. rewrite Hg.
    destruct (construct cls kwargs (world s)) as [[o|e] w]; cbn.
    + destruct (handler_get_columns o table w) as [[u|e] w1] eqn:Hcall; cbn;
        (split; [auto 10|]); (split; [reflexivity|]);
        exists (CallGetColumns table); cbn; rewrite Hcall; repeat split;
        eauto 10.
    + split; [auto 10|]. split; [reflexivity|]. repeat split.
      eexists. split; reflexivity.
  - (* native_query *)
    clear Hdec.
    assert (Hd : exists query, dict_get j "query" = Ok query)
      by (destruct j; try discriminate Ht; cbn;
          destruct (lookup "query" items); eauto).
    destruct Hd as [query Hd].
    unfold view_function, native_query, native_query_try, request_json,
      try_except, bind, pure_call, invoke, ret, result_of, state_of,
      trace_of.
    rewrite Hj. cbn. rewrite Hd. cbn. rewrite Hg.
    destruct (construct cls kwargs (world s)) as [[o|e] w]; cbn.
    + destruct (handler_native_query o query w) as [[u|e] w1] eqn:Hcall;
        cbn; (split; [auto 10|]); (split; [reflexivity|]);
        exists (CallNativeQuery query); cbn; rewrite Hcall; repeat split;
        eauto 10.
    + split; [auto 10|]. split; [reflexivity|]. repeat split.
      eexists. split; reflexivity.
  - (* query *)
    destruct (Hdec eq_refl) as [q Hq]. clear Hdec.
    destruct (decode_query_decoded req s j q Hq)
      as (t & Hrun & Hcons & Hcall0 & Hnc & Hncall).
    unfold view_function, query, query_try, get_data, try_except, bind,
      pure_call, invoke, ret, result_of, state_of, trace_of.
    cbn. rewrite Hrun. cbn. rewrite Hg.
    unfold constructed, called in *.
    destruct (construct cls kwargs (world s)) as [[o|e] w]; cbn.
    + destruct (handler_query o q w) as [[u|e] w1] eqn:Hcall; cbn;
        rewrite ?flat_map_app, ?Hcons, ?Hcall0; cbn;
        (split; [find_event|]);
        (split; [reflexivity|]);
        exists (CallQuery q); cbn; rewrite Hcall;
        (split; [eauto|]);
        (split; [find_event|]);
        split; reflexivity.
    + rewrite ?flat_map_app, ?Hcons, ?Hcall0; cbn.
      split; [find_event|].
      split; [reflexivity|]. repeat split.
      eexists. split; reflexivity.
Qed.

(** A handler a view constructs is the one of the request: the class the
    registry gives for the type of the parsed body, called on the items
    of its arguments, under the next identity. *)
Lemma construction_is_of_the_request (v : view_name) (req : request)
  (s : state W) (cls : Cls) (kwargs : list (string * pyval)) (id : nat) :
  In (EvConstruct cls kwargs id) (trace_of (view_function v req s)) ->
  id = next_id s
  /\ exists j tag : pyval,
       parsed_body v req = Ok j
       /\ (v = v_query -> exists q, decode_body (req_data req) = Ok (j, q))
       /\ getitem j "handler_type" = Ok tag
       /\ helpers_get_handler tag = Ok cls
       /\ getitem j "handler_kwargs" = Ok (PDict kwargs).
Proof.
  unfold decode_body.
  destruct v; run_view; intro Hin;
    repeat (destruct Hin as [Hin|Hin]; try discriminate Hin);
    try contradiction;
    inversion Hin; subst;
    match goal with
    | Hk : kwargs_of _ = Ok _ |- _ => apply kwargs_of_ok in Hk; subst
    end;
    (split; [reflexivity|]);
    do 2 eexists; repeat split; eauto; try discriminate.
Qed.

(** C5: a view that gets as far as the resolution, with a type the
    registry resolves and arguments that are a mapping, calls the class
    the registry gave on the items of [handler_kwargs] in the world as
    it is, under an identity no earlier object has, and constructs
    nothing else; when the class returns an object the view calls the
    capability of its name on that object, once, and leaves the world
    that call left; when the class raises, nothing is called and the
    exception is answered with code 500.  Conversely every construction
    of a view is that one, and every call of a view is on the object so
    constructed.  When requests are served one after the other, every
    call is on a handler constructed during the same request, and no
    identity is constructed twice: no handler serves two requests. *)
Theorem handler_is_built_for_each_request :
  (forall (v : view_name) (req : request) (s : state W) (j tag : pyval)
          (cls : Cls) (kwargs : list (string * pyval)),
      needs_handler v = true ->
      parsed_body v req = Ok j ->
      (v = v_query -> exists q, decode_body (req_data req) = Ok (j, q)) ->
      getitem j "handler_type" = Ok tag ->
      helpers_get_handler tag = Ok cls ->
      getitem j "handler_kwargs" = Ok (PDict kwargs) ->
      In (EvConstruct cls kwargs (next_id s))
         (trace_of (view_function v req s))
      /\ constructed (trace_of (view_function v req s)) = [next_id s]
      /\ match construct cls kwargs (world s) with
         | (Ok o, w) =>
             exists c : call Q,
               own_call v req c
               /\ In (EvCall (next_id s) c)
                     (trace_of (view_function v req s))
               /\ called (trace_of (view_function v req s)) = [next_id s]
               /\ state_of (view_function v req s)
                  = mk_state (world_after c o w) (S (next_id s))
         | (Raise e, w) =>
             called (trace_of (view_function v req s)) = []
             /\ state_of (view_function v req s)
                = mk_state w (S (next_id s))
             /\ exists b : body,
                  result_of (view_function v req s) = Ok (b, 500%Z)
                  /\ diagnostic b = Some (format_exc frames_of e)
         end)
  /\ (forall (v : view_name) (req : request) (s : state W) (cls : Cls)
             (kwargs : list (string * pyval)) (id : nat),
        In (EvConstruct cls kwargs id) (trace_of (view_function v req s)) ->
        id = next_id s
        /\ exists j tag : pyval,
             parsed_body v req = Ok j
             /\ (v = v_query ->
                 exists q, decode_body (req_data req) = Ok (j, q))
             /\ getitem j "handler_type" = Ok tag
             /\ helpers_get_handler tag = Ok cls
             /\ getitem j "handler_kwargs" = Ok (PDict kwargs))
  /\ (forall (v : view_name) (req : request) (s : state W) (id : nat)
             (c : call Q),
        In (EvCall id c) (trace_of (view_function v req s)) ->
        exists (j tag : pyval) (cls : Cls) (kwargs : list (string * pyval)),
          parsed_body v req = Ok j
          /\ getitem j "handler_type" = Ok tag
          /\ helpers_get_handler tag = Ok cls
          /\ getitem j "handler_kwargs" = Ok (PDict kwargs)
          /\ In (EvConstruct cls kwargs id)
                (trace_of (view_function v req s))
          /\ id = next_id s
          /\ constructed (trace_of (view_function v req s)) = [id])
  /\ (forall (url_map : list rule) (reqs : list request) (s : state W),
        Forall (fun seg => incl (called (snd seg)) (constructed (snd seg)))
               (serve url_map reqs s)
        /\ NoDup (flat_map (fun seg => constructed (snd seg))
                           (serve url_map reqs s))).
Proof.
  split; [|split; [|split]].
  - intros v req s j tag cls kwargs.
    apply view_builds_its_handler.
  - intros v req s cls kwargs id.
    apply construction_is_of_the_request.
  - intros v req s id c Hin.
    destruct (view_calls_its_own_handler v req s id c Hin)
      as (j & tag & cls & kwargs & Hj & Htag & Hcls & Hkw & Hcons & Hid).
    exists j, tag, cls, kwargs. repeat split; try assumption.
    destruct (view_constructs_at_most_once v req s) as [[Hnone _] | [Hone _]].
    + exfalso.
      assert (Hc : In id (constructed (trace_of (view_function v req s)))).
      { unfold constructed. apply in_flat_map.
        exists (EvConstruct cls kwargs id). split; [assumption|now left]. }
      rewrite Hnone in Hc. contradiction.
    + now rewrite Hone, Hid.
  - intros url_map reqs s.
    destruct (serve_constructs_fresh url_map reqs s) as (_ & Hnd & Hall).
    split; assumption.
Qed.

(** C6: [connect] and [disconnect] are both registered on the path
    [/connect] with the method GET and nowhere else; a GET of [/connect]
    is dispatched to one of the two; and no rule has the path
    [/disconnect], which matches no request. *)
Theorem connect_and_disconnect_share_a_route :
  In (mk_rule "/connect" ["GET"%string] v_connect) DBHandlerWrapper_init
  /\ In (mk_rule "/connect" ["GET"%string] v_disconnect) DBHandlerWrapper_init
  /\ (forall r : rule,
        In r DBHandlerWrapper_init ->
        rule_view r = v_connect \/ rule_view r = v_disconnect ->
        rule_path r = "/connect"%string /\ rule_methods r = ["GET"%string])
  /\ (exists v : view_name,
        match_request DBHandlerWrapper_init "/connect" "GET" = Some v
        /\ (v = v_connect \/ v = v_disconnect))
  /\ (forall r : rule,
        In r DBHandlerWrapper_init -> rule_path r <> "/disconnect"%string)
  /\ (forall method : string,
        match_request DBHandlerWrapper_init "/disconnect" method = None).
Proof.
  split; [|split; [|split; [|split; [|split]]]].
  - cbn. auto.
  - cbn. auto 10.
  - intros r Hin Hv. cbn in Hin.
    intuition (subst; cbn in *; try discriminate; auto).
  - exists v_connect. split; [reflexivity|auto].
  - intros r Hin. cbn in Hin. intuition (subst; cbn; discriminate).
  - intro method. reflexivity.
Qed.

End ViewFacts.

(** ** The resolver of the spec and the codec *)

Section Resolver.

Context {W Q Cls H : Type} {R : Runtime W Q Cls H}.

(** The registry of the spec behind [helpers_get_handler]. *)
Variable registry : string -> option Cls.
Hypothesis helpers_by_spec :
  forall tag, helpers_get_handler tag = registry_get_handler registry tag.

(** The resolution of an unregistered type raises the exception of the
    spec after the lookup, with no handler constructed. *)
Lemma get_handler_unknown_type (j : pyval) (ty : string) (s : state W) :
  getitem j "handler_type" = Ok (PStr ty) ->
  registry ty = None ->
  get_handler j s
  = (Raise (UnknownBackendType ty), s,
     [EvGetItem "handler_type"; EvLookupClass (PStr ty)]).
Proof.
  intros Hty Hreg. unfold get_handler, bind, pure_call.
  rewrite Hty. cbn. rewrite helpers_by_spec. cbn. now rewrite Hreg.
Qed.

(** C8, amended: with the resolver of the spec, a request whose parsed
    body names an unregistered [handler_type] gets, from every view that
    resolves a handler, status 500 and a diagnostic that mentions the
    type, and no handler is called; for [query] this holds when the
    decoding of the field [query] goes through, since the view decodes
    before it resolves. *)
Theorem unknown_handler_type_is_reported
  (v : view_name) (req : request) (s : state W) (j : pyval) (ty : string) :
  needs_handler v = true ->
  parsed_body v req = Ok j ->
  getitem j "handler_type" = Ok (PStr ty) ->
  registry ty = None ->
  (v = v_query -> exists q, result_of (decode_query req s) = Ok (j, q)) ->
  reports_unknown_type v req s ty.
Proof.
  intros Hv Hj Hty Hreg Hdec.
  pose proof (get_handler_unknown_type j ty s Hty Hreg) as Hh.
  pose proof (format_exc_mentions_unknown_type frames_of ty) as Hm.
  unfold reports_unknown_type.
  destruct v; try discriminate Hv; clear Hv; cbn in Hj;
    try (clear Hdec;
         unfold view_function, connect, disconnect, check_connection,
           get_tables, get_columns, native_query, connect_try,
           disconnect_try, check_connection_try, get_tables_try,
           get_columns_try, native_query_try, request_json, try_except,
           bind, pure_call, ret, result_of, trace_of;
         rewrite Hj; cbn;
         try (destruct j; try discriminate Hty; cbn;
              match goal with
              | |- context [lookup ?k ?items] => destruct (lookup k items)
              end; cbn);
         rewrite Hh; cbn;
         do 2 eexists; repeat split; exact Hm).
  destruct (Hdec eq_refl) as [q Hq]. clear Hdec.
  unfold view_function, query, query_try, try_except, bind, ret, result_of,
    trace_of in *.
  unfold get_data, pure_call at 1. cbn.
  destruct (decode_query req s) as [[[d|e] s1] t1] eqn:Hd; cbn in Hq;
    [|discriminate].
  inversion Hq; subst d. cbn.
  assert (Hs : s1 = s /\ called t1 = []).
  { revert Hd. unfold decode_query, get_data, bind, pure_call, ret. cbn.
    repeat (break_inner; cbn); intro Hd; inversion Hd; subst; auto. }
  destruct Hs as [-> Ht1]. rewrite Hh. cbn.
  do 2 eexists. repeat split; try exact Hm.
  unfold called in *. rewrite !flat_map_app, Ht1. reflexivity.
Qed.

End Resolver.

Section Codec.

Context {W Q Cls H : Type} {R : Runtime W Q Cls H}.

(** The serializer of the caller, its JSON printer, and the equality of
    the backend on query objects. *)
Variable pickle_dumps : Q -> outcome bytes.
Variable json_dumps : pyval -> bytes.
Variable q_eq : Q -> Q -> Prop.

(** C3: let [pickle.loads] give back, up to the equality of the backend,
    every object [pickle.dumps] accepts, and let [json.loads] give back
    the document the caller prints.  Then for every query object the
    serializer accepts, the first part of [query] run on the body the
    caller encoded gives the document and an object equal to the one
    encoded: the UTF-8 and base64 steps of the two sides cancel. *)
Theorem query_codec_round_trip
  (handler_type : string) (handler_kwargs : list (string * pyval)) (q : Q)
  (req : request) (s : state W) :
  (forall x data,
      pickle_dumps x = Ok data ->
      exists x', pickle_loads data = Ok x' /\ q_eq x x') ->
  (forall s_query,
      pickle_dumps q = Ok s_query ->
      let doc := query_document handler_type handler_kwargs
                   (string_of_list_byte (Base64.b64encode s_query)) in
      json_loads (json_dumps doc) = Ok doc) ->
  encode_query pickle_dumps json_dumps handler_type handler_kwargs q
  = Ok (req_data req) ->
  exists (j : pyval) (q' : Q),
    result_of (decode_query req s) = Ok (j, q')
    /\ getitem j "handler_type" = Ok (PStr handler_type)
    /\ getitem j "handler_kwargs" = Ok (PDict handler_kwargs)
    /\ q_eq q q'.
Proof.
  intros Hpickle Hjson Henc. unfold encode_query in Henc.
  destruct (pickle_dumps q) as [s_query|] eqn:Hdumps; [|discriminate].
  inversion Henc as [Hdata]. clear Henc.
  specialize (Hjson s_query eq_refl). cbv zeta in Hjson.
  destruct (Hpickle q s_query Hdumps) as (q' & Hloads & Heq).
  exists (query_document handler_type handler_kwargs
            (string_of_list_byte (Base64.b64encode s_query))), q'.
  split; [|auto].
  unfold decode_query, get_data, bind, pure_call, ret, result_of.
  rewrite <- Hdata, Hjson. cbn.
  rewrite list_byte_of_string_of_list_byte.
  rewrite Base64Facts.b64decode_b64encode. cbn.
  now rewrite Hloads.
Qed.

End Codec.

(** * Further facts *)

Section FurtherFacts.

Context {W Q Cls H : Type} {R : Runtime W Q Cls H}.

(** ** The resolution of the handler *)

(** X1: [get_handler] returns a handler exactly when the parsed body has
    a [handler_type] the registry resolves to a class, has a
    [handler_kwargs] that is a mapping, and the class accepts the items
    of that mapping as keyword arguments; the handler returned is the
    object the class built, under the next identity. *)
Theorem get_handler_succeeds_iff (j : pyval) (s : state W) (o : H) (w : W) :
  (result_of (get_handler j s) = Ok (mk_handle (next_id s) o)
   /\ state_of (get_handler j s) = mk_state w (S (next_id s)))
  <-> exists (tag : pyval) (cls : Cls) (kwargs : list (string * pyval)),
        getitem j "handler_type" = Ok tag
        /\ helpers_get_handler tag = Ok cls
        /\ getitem j "handler_kwargs" = Ok (PDict kwargs)
        /\ construct cls kwargs (world s) = (Ok o, w).
Proof.
  split.
  - unfold result_of, state_of.
    destruct (get_handler j s) as [[r s1] t] eqn:Hg. cbn.
    intros [-> ->].
    destruct (get_handler_ok j s _ _ _ Hg)
      as (tag & cls & kwargs & w0 & Ht & Hc & Hk & Hb & _ & Hs & _).
    cbn in Hb. inversion Hs; subst w0. eauto 10.
  - intros (tag & cls & kwargs & Ht & Hc & Hk & Hb).
    unfold get_handler, instantiate, bind, pure_call, eval, result_of,
      state_of.
    rewrite Ht. cbn. rewrite Hc. cbn. rewrite Hk. cbn. rewrite Hb.
    split; reflexivity.
Qed.

(** X2: the errors of [get_handler] come in the order of its reads.  A
    body without [handler_type] raises the [KeyError] of that key
    whatever else it holds; an exception of the registry is raised
    whether or not [handler_kwargs] is there; with a class found, a body
    without [handler_kwargs] raises the [KeyError] of that key, and a
    [handler_kwargs] that is not a mapping raises a [TypeError].  In all
    four cases nothing is constructed and the state is left as it was. *)
Theorem get_handler_errors_in_order (j : pyval) (s : state W) :
  (forall items,
      j = PDict items -> lookup "handler_type" items = None ->
      get_handler j s
      = (Raise (KeyError "handler_type"), s, [EvGetItem "handler_type"]))
  /\ (forall tag e,
        getitem j "handler_type" = Ok tag ->
        helpers_get_handler tag = Raise e ->
        get_handler j s
        = (Raise e, s, [EvGetItem "handler_type"; EvLookupClass tag]))
  /\ (forall tag cls items,
        j = PDict items ->
        getitem j "handler_type" = Ok tag ->
        helpers_get_handler tag = Ok cls ->
        lookup "handler_kwargs" items = None ->
        get_handler j s
        = (Raise (KeyError "handler_kwargs"), s,
           [ EvGetItem "handler_type"; EvLookupClass tag;
             EvGetItem "handler_kwargs" ]))
  /\ (forall tag cls kw,
        getitem j "handler_type" = Ok tag ->
        helpers_get_handler tag = Ok cls ->
        getitem j "handler_kwargs" = Ok kw ->
        (forall kwargs, kw <> PDict kwargs) ->
        exists msg,
          get_handler j s
          = (Raise (TypeError msg), s,
             [ EvGetItem "handler_type"; EvLookupClass tag;
               EvGetItem "handler_kwargs" ])).
Proof.
  unfold get_handler, instantiate, bind, pure_call, eval.
  split; [|split; [|split]].
  - intros items -> Hl. cbn. now rewrite Hl.
  - intros tag e Ht He. rewrite Ht. cbn. now rewrite He.
  - intros tag cls items -> Ht Hc Hl. rewrite Ht. cbn. rewrite Hc. cbn.
    now rewrite Hl.
  - intros tag cls kw Ht Hc Hk Hn. rewrite Ht. cbn. rewrite Hc. cbn.
    rewrite Hk. cbn.
    destruct kw; cbn; try (eexists; reflexivity).
    now elim (Hn items).
Qed.

(** ** The views *)

(** The first [try] block of [query] computes [decode_body] of the raw
    data, leaves the state as it is and goes nowhere near the handlers or
    [request.json]. *)
Lemma decode_query_run (req : request) (s : state W) :
  result_of (decode_query req s) = decode_body (req_data req)
  /\ state_of (decode_query req s) = s
  /\ existsb touches_handler (trace_of (decode_query req s)) = false
  /\ ~ In EvRequestJson (trace_of (decode_query req s)).
Proof.
  unfold decode_body. run_view; repeat split; auto;
    intro Hin; repeat (destruct Hin as [Hin|Hin]; try discriminate Hin);
    contradiction.
Qed.

(** X3: every answer of a view is in the envelope of that view: the text
    of [index]; for [connect] and [disconnect] the status OK with code
    200 or the status FAIL with an error text and code 500; a Status
    Response with code 200 or 500 for [check_connection]; a Query
    Response with code 200 or 500 for the four other views. *)
Theorem views_answer_in_their_envelope
  (v : view_name) (req : request) (s : state W) (r : response) :
  result_of (view_function v req s) = Ok r -> in_envelope v r.
Proof.
  destruct v; run_view; intro Hr; inversion Hr; subst;
    unfold error_response, fail_body; eauto.
Qed.

(** X4: an answer with code 500, of any view, carries as its diagnostic
    the formatted traceback of an exception, a text that is not empty:
    in the field [error] for [connect] and [disconnect], in the error
    message of the response for the other views. *)
Theorem failure_answer_carries_traceback
  (v : view_name) (req : request) (s : state W) (b : body) :
  result_of (view_function v req s) = Ok (b, 500%Z) ->
  exists e : exn,
    diagnostic b = Some (format_exc frames_of e)
    /\ format_exc frames_of e <> ""%string.
Proof.
  destruct v; run_view; intro Hr; inversion Hr; subst;
    eexists; (split; [reflexivity|discriminate]).
Qed.

(** A call a view makes on a handler is the call of that view. *)
Lemma call_of_view_is_own (v : view_name) (req : request) (s : state W)
  (id : nat) (c : call Q) :
  In (EvCall id c) (trace_of (view_function v req s)) -> own_call v req c.
Proof.
  unfold own_call, decode_body.
  destruct v; run_view; intro Hin;
    repeat (destruct Hin as [Hin|Hin]; try discriminate Hin);
    try contradiction; inversion Hin; subst; eauto 10.
Qed.

(** X6: a view calls nothing on a handler but the capability of its own
    name, with the argument it read from the request, and it makes at
    most one call, whether it goes on to answer 200 or 500. *)
Theorem view_calls_only_its_capability
  (v : view_name) (req : request) (s : state W) :
  (forall (id : nat) (c : call Q),
      In (EvCall id c) (trace_of (view_function v req s)) ->
      own_call v req c)
  /\ List.length (called (trace_of (view_function v req s))) <= 1.
Proof.
  split; [intros id c; apply call_of_view_is_own|].
  destruct v; run_view; auto.
Qed.

(** X5: an answer with code 200 of a view other than [index] means that
    exactly one handler was constructed during the request and exactly
    one call was made, on that handler, of the capability of the view. *)
Theorem success_means_one_handler_one_call
  (v : view_name) (req : request) (s : state W) (b : body) :
  needs_handler v = true ->
  result_of (view_function v req s) = Ok (b, 200%Z) ->
  constructed (trace_of (view_function v req s)) = [next_id s]
  /\ called (trace_of (view_function v req s)) = [next_id s]
  /\ exists c : call Q,
       In (EvCall (next_id s) c) (trace_of (view_function v req s))
       /\ own_call v req c.
Proof.
  unfold own_call, decode_body.
  intro Hv. destruct v; try discriminate Hv; clear Hv; run_view;
    intro Hr; try discriminate Hr;
    (split; [reflexivity|]); (split; [reflexivity|]);
    eexists; (split; [auto 20|]); eauto 10.
Qed.

(** X8: [native_query] hands the handler whatever the body holds under
    [query], and [None] when the body is an object without that key:
    when the handler resolves, the one call is [native_query] of the
    handler with that value, and the answer is the result of the call
    with code 200, or the error response of the exception it raised. *)
Theorem native_query_passes_query_verbatim
  (req : request) (s : state W) (items : list (string * pyval))
  (h : handle H) (s1 : state W) (t1 : list (event Q Cls)) :
  flask_json req = Ok (PDict items) ->
  get_handler (PDict items) s = (Ok h, s1, t1) ->
  let query := match lookup "query" items with
               | Some q => q
               | None => PNone
               end in
  trace_of (native_query req s)
  = [EvRequestJson; EvGet "query"; EvRequestJson] ++ t1
      ++ [EvCall (obj_id h) (CallNativeQuery query)]
  /\ result_of (native_query req s)
     = match handler_native_query (obj h) query (world s1) with
       | (Ok r, _) => Ok (QueryJson r, 200%Z)
       | (Raise e, _) => Ok (error_response e)
       end.
Proof.
  intros Hj Hh query.
  unfold native_query, native_query_try, request_json, try_except, bind,
    pure_call, invoke, ret, result_of, trace_of.
  rewrite Hj. cbn.
  assert (Hq : match lookup "query" items with
               | Some x => Ok x
               | None => Ok PNone
               end = Ok query)
    by (subst query; now destruct (lookup "query" items)).
  rewrite Hq. cbn. rewrite Hh. cbn.
  destruct (handler_native_query (obj h) query (world s1)) as [[r|e] w]; cbn;
    rewrite ?app_nil_r; auto.
Qed.

(** X9: [get_columns] hands the handler the value the body holds under
    [table] as it is, a text or not: when the handler resolves, the one
    call is [get_columns] of the handler with that value, and the answer
    is the result of the call with code 200, or the error response of
    the exception it raised. *)
Theorem get_columns_passes_table_verbatim
  (req : request) (s : state W) (items : list (string * pyval))
  (table : pyval) (h : handle H) (s1 : state W) (t1 : list (event Q Cls)) :
  flask_json req = Ok (PDict items) ->
  lookup "table" items = Some table ->
  get_handler (PDict items) s = (Ok h, s1, t1) ->
  trace_of (get_columns req s)
  = [EvRequestJson; EvGet "table"; EvRequestJson] ++ t1
      ++ [EvCall (obj_id h) (CallGetColumns table)]
  /\ result_of (get_columns req s)
     = match handler_get_columns (obj h) table (world s1) with
       | (Ok r, _) => Ok (QueryJson r, 200%Z)
       | (Raise e, _) => Ok (error_response e)
       end.
Proof.
  intros Hj Ht Hh.
  unfold get_columns, get_columns_try, request_json, try_except, bind,
    pure_call, invoke, ret, result_of, trace_of.
  rewrite Hj. cbn. rewrite Ht. cbn. rewrite Hh. cbn.
  destruct (handler_get_columns (obj h) table (world s1)) as [[r|e] w]; cbn;
    rewrite ?app_nil_r; auto.
Qed.

(** X14: [connect] answers with the status OK and code 200 exactly when
    the body parses, the handler resolves and its [connect] returns;
    [disconnect] likewise with the [disconnect] of the handler. *)
Theorem connect_and_disconnect_answer_OK_iff (req : request) (s : state W) :
  (result_of (connect req s) = Ok (BodyDict [("status", PStr "OK")], 200%Z)
   <-> exists (j : pyval) (h : handle H) (s1 : state W)
              (t1 : list (event Q Cls)) (w : W),
         flask_json req = Ok j
         /\ get_handler j s = (Ok h, s1, t1)
         /\ handler_connect (obj h) (world s1) = (Ok tt, w))
  /\ (result_of (disconnect req s)
      = Ok (BodyDict [("status", PStr "OK")], 200%Z)
      <-> exists (j : pyval) (h : handle H) (s1 : state W)
                 (t1 : list (event Q Cls)) (w : W),
            flask_json req = Ok j
            /\ get_handler j s = (Ok h, s1, t1)
            /\ handler_disconnect (obj h) (world s1) = (Ok tt, w)).
Proof.
  unfold connect, connect_try, disconnect, disconnect_try, request_json,
    try_except, bind, pure_call, invoke, ret, result_of.
  split.
  - destruct (flask_json req) as [j|] eqn:Hj; cbn.
    + destruct (get_handler j s) as [[[h|] s1] t1] eqn:Hh; cbn.
      * destruct (handler_connect (obj h) (world s1)) as [[[]|] w] eqn:Hc;
          cbn; split; eauto 10; try discriminate.
        intros (j' & h' & s1' & t1' & w' & Hj' & Hh' & Hc').
        inversion Hj'; subst j'. rewrite Hh in Hh'. inversion Hh'; subst.
        rewrite Hc in Hc'. discriminate Hc'.
      * split; [discriminate|].
        intros (j' & h' & s1' & t1' & w' & Hj' & Hh' & _).
        inversion Hj'; subst j'. rewrite Hh in Hh'. discriminate Hh'.
    + split; [discriminate|].
      intros (j' & h' & s1' & t1' & w' & Hj' & _). discriminate Hj'.
  - destruct (flask_json req) as [j|] eqn:Hj; cbn.
    + destruct (get_handler j s) as [[[h|] s1] t1] eqn:Hh; cbn.
      * destruct (handler_disconnect (obj h) (world s1)) as [[[]|] w] eqn:Hc;
          cbn; split; eauto 10; try discriminate.
        intros (j' & h' & s1' & t1' & w' & Hj' & Hh' & Hc').
        inversion Hj'; subst j'. rewrite Hh in Hh'. inversion Hh'; subst.
        rewrite Hc in Hc'. discriminate Hc'.
      * split; [discriminate|].
        intros (j' & h' & s1' & t1' & w' & Hj' & Hh' & _).
        inversion Hj'; subst j'. rewrite Hh in Hh'. discriminate Hh'.
    + split; [discriminate|].
      intros (j' & h' & s1' & t1' & w' & Hj' & _). discriminate Hj'.
Qed.

(** X16: the answer of [query] is the decoding of the raw body followed
    by the guarded use of the handler: a decoding failure is answered
    with its error response; otherwise the handler is resolved from the
    parsed body, and the answer is the result of its [query] on the
    decoded object with code 200, or the error response of the exception
    the resolution or the call raised. *)
Theorem query_answer (req : request) (s : state W) :
  result_of (query req s)
  = match decode_body (req_data req) with
    | Raise e => Ok (error_response e)
    | Ok (j, q) =>
        match get_handler j s with
        | (Raise e, _, _) => Ok (error_response e)
        | (Ok h, s1, _) =>
            match handler_query (obj h) q (world s1) with
            | (Ok r, _) => Ok (QueryJson r, 200%Z)
            | (Raise e, _) => Ok (error_response e)
            end
        end
    end.
Proof.
  destruct (decode_query_run req s) as (Hr & Hs & _).
  unfold query, query_try, get_data, try_except, bind, pure_call, invoke,
    ret, result_of, state_of in *.
  cbn. destruct (decode_query req s) as [[[[j q]|e] s1] t1]; cbn in *;
    subst s1; rewrite <- Hr; cbn; [|reflexivity].
  destruct (get_handler j s) as [[[h|e] s2] t2]; cbn; [|reflexivity].
  destruct (handler_query (obj h) q (world s2)) as [[r|e] w]; reflexivity.
Qed.

(** X12: [query] never reads [request.json], so the parser of Flask and
    its errors play no part in it, while every other view that resolves
    a handler reads [request.json] before anything else. *)
Theorem query_never_reads_request_json (req : request) (s : state W) :
  ~ In EvRequestJson (trace_of (query req s))
  /\ (forall v : view_name,
        needs_handler v = true -> v <> v_query ->
        exists t, trace_of (view_function v req s) = EvRequestJson :: t).
Proof.
  split.
  - run_view; intro Hin;
      repeat (destruct Hin as [Hin|Hin]; try discriminate Hin);
      contradiction.
  - intros v Hv Hq. destruct v; try discriminate Hv; try congruence;
      run_view; eauto.
Qed.

(** X15: the status code tells of exceptions only.  What the handler
    returns is answered as it is with code 200, also when it is a status
    with success false or a response of type ERROR: so for the status of
    [check_connection] and for the response of [get_tables], and the
    world after the view is the world the handler left. *)
Theorem handler_result_is_forwarded_verbatim
  (req : request) (s : state W) (j : pyval) (h : handle H) (s1 : state W)
  (t1 : list (event Q Cls)) :
  flask_json req = Ok j ->
  get_handler j s = (Ok h, s1, t1) ->
  (forall (sr : StatusResponse) (w : W),
      handler_check_connection (obj h) (world s1) = (Ok sr, w) ->
      check_connection req s
      = (Ok (StatusJson sr, 200%Z), mk_state w (next_id s1),
         EvRequestJson :: t1 ++ [EvCall (obj_id h) CallCheckConnection]))
  /\ (forall (r : Response) (w : W),
        handler_get_tables (obj h) (world s1) = (Ok r, w) ->
        get_tables req s
        = (Ok (QueryJson r, 200%Z), mk_state w (next_id s1),
           EvRequestJson :: t1 ++ [EvCall (obj_id h) CallGetTables])).
Proof.
  intros Hj Hh.
  unfold check_connection, check_connection_try, get_tables, get_tables_try,
    request_json, try_except, bind, pure_call, invoke, ret.
  rewrite Hj. cbn. rewrite Hh. cbn.
  split; intros x w Hx; rewrite Hx; cbn; rewrite ?app_nil_r; reflexivity.
Qed.

(** ** The routes *)

(** The rule of [disconnect] matches what the rule of [connect] matches,
    and that one comes first. *)
Lemma match_request_never_disconnect (path method : string) :
  match_request DBHandlerWrapper_init path method <> Some v_disconnect.
Proof.
  unfold match_request, DBHandlerWrapper_init, BaseDBWrapper_init, route,
    rule_matches.
  cbn [app find rule_path rule_methods].
  repeat match goal with
    | |- context [if ?b then _ else _] =>
        lazymatch b with
        | context [if _ then _ else _] => fail
        | _ => destruct b
        end
    end; cbn; discriminate.
Qed.

(** No view but [disconnect] has [disconnect] for its call. *)
Lemma own_call_disconnect (v : view_name) (req : request) :
  own_call v req CallDisconnect -> v = v_disconnect.
Proof.
  destruct v; cbn; intro Ho; try reflexivity; try contradiction;
    try discriminate Ho;
    repeat match goal with
      | Hx : exists _, _ |- _ => destruct Hx
      | Hx : _ /\ _ |- _ => destruct Hx
      end; discriminate.
Qed.

(** The dispatch of a request never calls [disconnect] on a handler. *)
Lemma dispatch_never_disconnects (req : request) (s : state W) (id : nat) :
  ~ In (EvCall id CallDisconnect)
       (snd (dispatch_request DBHandlerWrapper_init req s)).
Proof.
  unfold dispatch_request.
  destruct (match_request DBHandlerWrapper_init (req_path req)
              (req_method req)) as [v|] eqn:Hm; [|auto].
  pose proof (call_of_view_is_own v req s id CallDisconnect) as Hown.
  unfold trace_of in Hown.
  destruct (view_function v req s) as [[[r|e] s1] t]; cbn in *;
    intro Hin; apply Hown, own_call_disconnect in Hin; subst v;
    exact (match_request_never_disconnect _ _ Hm).
Qed.

(** X10: the view [disconnect] is dead behind the routes: no path and
    method is matched to it, and however many requests are served, no
    handler ever gets a call of its [disconnect]. *)
Theorem disconnect_is_never_dispatched :
  (forall path method : string,
      match_request DBHandlerWrapper_init path method <> Some v_disconnect)
  /\ (forall (reqs : list request) (s : state W),
        Forall (fun seg => forall id : nat,
                    ~ In (EvCall id CallDisconnect) (snd seg))
               (serve DBHandlerWrapper_init reqs s)).
Proof.
  split; [exact match_request_never_disconnect|].
  induction reqs as [|req reqs IH]; intro s; cbn [serve]; [constructor|].
  pose proof (dispatch_never_disconnects req s) as Hd.
  destruct (dispatch_request DBHandlerWrapper_init req s) as [[r s1] t].
  constructor; [exact Hd | apply IH].
Qed.

(** X13: serving answers every request once and constructs at most one
    handler for each: the handlers constructed are never more than the
    requests served. *)
Theorem serve_builds_at_most_one_handler_per_request
  (url_map : list rule) (reqs : list request) (s : state W) :
  List.length (serve url_map reqs s) = List.length reqs
  /\ List.length (flat_map (fun seg => constructed (snd seg))
                           (serve url_map reqs s))
     <= List.length reqs.
Proof.
  revert s. induction reqs as [|req reqs IH]; intro s; cbn [serve].
  - split; [reflexivity|apply Nat.le_refl].
  - destruct (dispatch_constructs_at_most_once url_map req s) as [_ Hc].
    destruct (dispatch_request url_map req s) as [[r s1] t].
    cbn [snd fst] in Hc.
    destruct (IH s1) as [Hl Hn]. cbn [List.length flat_map snd].
    rewrite length_app, Hl. split; [reflexivity|].
    destruct Hc as [[-> _] | [-> _]]; cbn [List.length]; lia.
Qed.

End FurtherFacts.

(** ** The properties on the stub runtime *)

Local Open Scope string_scope.

(** A request of [get_tables] for an unregistered type: the exception of
    the resolver is caught and answered with its error response. *)
Lemma caught_failure_is_error_code_1_witness :
  caught (R := Stub.runtime) v_get_tables
    (Stub.request_of "GET" "/get_tables" (Stub.descriptor "nosuchdb" []))
    Stub.start (UnknownBackendType "nosuchdb")
  /\ result_of (view_function (R := Stub.runtime) v_get_tables
                  (Stub.request_of "GET" "/get_tables"
                     (Stub.descriptor "nosuchdb" []))
                  Stub.start)
     = Ok (error_response (R := Stub.runtime)
             (UnknownBackendType "nosuchdb")).
Proof.
  assert (Hc : caught (R := Stub.runtime) v_get_tables
                 (Stub.request_of "GET" "/get_tables"
                    (Stub.descriptor "nosuchdb" []))
                 Stub.start (UnknownBackendType "nosuchdb"))
    by (vm_compute; reflexivity).
  split; [exact Hc|].
  exact (proj1 (caught_failure_is_error_code_1 (R := Stub.runtime)
                  v_get_tables
                  (Stub.request_of "GET" "/get_tables"
                     (Stub.descriptor "nosuchdb" []))
                  Stub.start eq_refl)
               (UnknownBackendType "nosuchdb") Hc).
Defined.

(** The stub handler built from an empty descriptor reports success. *)
Lemma check_connection_reports_the_check_witness :
  exists (sr : StatusResponse) (code : Z),
    result_of (check_connection (R := Stub.runtime)
                 (Stub.request_of "GET" "/check_connection"
                    (Stub.descriptor "stub" []))
                 Stub.start) = Ok (StatusJson sr, code)
    /\ success sr = true.
Proof.
  destruct (check_connection_reports_the_check (R := Stub.runtime)
              (Stub.request_of "GET" "/check_connection"
                 (Stub.descriptor "stub" []))
              Stub.start)
    as (sr & code & Hr & _ & _ & Hres).
  exists sr, code. split; [exact Hr|].
  apply (Hres (Stub.descriptor "stub" []) (mk_handle 0 [])
              (mk_state 0 1)
              [ EvGetItem "handler_type"; EvLookupClass (PStr "stub");
                EvGetItem "handler_kwargs"; EvConstruct Stub.StubHandler [] 0 ]);
    [vm_compute; reflexivity | vm_compute; reflexivity |].
  exists (mk_StatusResponse true None), 1.
  split; reflexivity.
Defined.

(** A query field that is not base64 is a decoding failure. *)
Lemma query_decode_failure_is_reported_witness :
  exists (r : Response),
    result_of (query (R := Stub.runtime)
                 (Stub.request_of "GET" "/query"
                    (Stub.descriptor "stub" [("query", PStr "a")]))
                 Stub.start) = Ok (QueryJson r, 500%Z)
    /\ resp_type r = ERROR
    /\ error_message r
       = Some (format_exc Stub.stub_frames_of
                 (BinasciiError "Invalid base64-encoded string: number of data characters (1) cannot be 1 more than a multiple of 4"))
    /\ error_message r <> None
    /\ state_of (query (R := Stub.runtime)
                   (Stub.request_of "GET" "/query"
                      (Stub.descriptor "stub" [("query", PStr "a")]))
                   Stub.start) = Stub.start
    /\ existsb touches_handler
         (trace_of (query (R := Stub.runtime)
                      (Stub.request_of "GET" "/query"
                         (Stub.descriptor "stub" [("query", PStr "a")]))
                      Stub.start)) = false.
Proof.
  apply (query_decode_failure_is_reported (R := Stub.runtime)).
  apply (bad_base64 (R := Stub.runtime) _ _
           (Stub.descriptor "stub" [("query", PStr "a")]) (PStr "a")
           ["a"%byte]);
    vm_compute; reflexivity.
Defined.

(** A request of [get_columns] without a [table] reaches the stub handler
    with [None]. *)
Lemma get_columns_without_table_passes_None_witness :
  trace_of (get_columns (R := Stub.runtime)
              (Stub.request_of "GET" "/get_columns" (Stub.descriptor "stub" []))
              Stub.start)
  = [ EvRequestJson; EvGet "table"; EvRequestJson;
      EvGetItem "handler_type"; EvLookupClass (PStr "stub");
      EvGetItem "handler_kwargs"; EvConstruct Stub.StubHandler [] 0;
      EvCall 0 (CallGetColumns PNone) ]
  /\ result_of (get_columns (R := Stub.runtime)
                  (Stub.request_of "GET" "/get_columns"
                     (Stub.descriptor "stub" []))
                  Stub.start)
     = Ok (QueryJson Stub.one_row, 200%Z).
Proof.
  exact (get_columns_without_table_passes_None (R := Stub.runtime)
           (Stub.request_of "GET" "/get_columns" (Stub.descriptor "stub" []))
           Stub.start
           [("handler_type", PStr "stub"); ("handler_kwargs", PDict [])]
           eq_refl eq_refl).
Defined.

(** A POST to [/native_query] whose body is a JSON list: the read of the
    field [query] raises outside the [try]. *)
Lemma native_query_lets_the_read_escape_witness :
  result_of (native_query (R := Stub.runtime)
               (Stub.request_of "POST" "/native_query" (PList []))
               Stub.start)
  = Raise (AttributeError (PList []) "get")
  /\ fst (fst (dispatch_request (R := Stub.runtime) DBHandlerWrapper_init
                 (Stub.request_of "POST" "/native_query" (PList []))
                 Stub.start))
     = Escaped (AttributeError (PList []) "get").
Proof.
  apply (native_query_lets_the_read_escape (R := Stub.runtime));
    [reflexivity | reflexivity |].
  right. exists (PList []). split; vm_compute; reflexivity.
Defined.

(** A body that is not JSON at all: [request.json] raises outside the
    [try] of [native_query]. *)
Lemma native_query_bad_json_escapes :
  result_of (native_query (R := Stub.runtime)
               (mk_request "POST" "/native_query" "application/json"
                  (list_byte_of_string "{"))
               Stub.start)
  = Raise (mk_exn "werkzeug.exceptions.BadRequest"
                  "400 Bad Request: Failed to decode JSON object").
Proof. vm_compute. reflexivity. Qed.

(** The same body sent to [get_columns], which reads [request.json]
    inside its [try], is answered with status 500. *)
Lemma get_columns_bad_json_answers :
  exists b,
    result_of (get_columns (R := Stub.runtime)
                 (mk_request "GET" "/get_columns" "application/json"
                    (list_byte_of_string "{"))
                 Stub.start)
    = Ok (b, 500%Z).
Proof. eexists. vm_compute. reflexivity. Qed.

(** The query of the stub on a table it knows nothing of goes through
    every step and answers 200 on another statement. *)
Lemma query_steps_in_order_witness :
  result_of (query (R := Stub.runtime)
               (Stub.request_of "GET" "/query"
                  (Stub.descriptor "stub"
                     [("query", PStr (Stub.b64_of "SELECT 1"))]))
               Stub.start)
  = Ok (QueryJson Stub.one_row, 200%Z).
Proof.
  destruct (query_steps_in_order (R := Stub.runtime)
              (Stub.request_of "GET" "/query"
                 (Stub.descriptor "stub"
                    [("query", PStr (Stub.b64_of "SELECT 1"))]))
              Stub.start)
    as (_ & _ & Hall).
  apply (Hall (Stub.descriptor "stub"
                 [("query", PStr (Stub.b64_of "SELECT 1"))])
              (PStr (Stub.b64_of "SELECT 1"))
              (list_byte_of_string (Stub.b64_of "SELECT 1"))
              (x80 :: list_byte_of_string "SELECT 1")
              "SELECT 1" (mk_handle 0 []) (mk_state 0 1)
              [ EvGetItem "handler_type"; EvLookupClass (PStr "stub");
                EvGetItem "handler_kwargs";
                EvConstruct Stub.StubHandler [] 0 ]
              Stub.one_row 1);
    vm_compute; reflexivity.
Defined.

(** [connect] on the stub calls the stub class on the empty arguments of
    the descriptor and then [connect] on the object built. *)
Lemma handler_is_built_for_each_request_witness :
  In (EvConstruct Stub.StubHandler [] 0)
     (trace_of (view_function (R := Stub.runtime) v_connect
                  (Stub.request_of "GET" "/connect"
                     (Stub.descriptor "stub" []))
                  Stub.start))
  /\ constructed
       (trace_of (view_function (R := Stub.runtime) v_connect
                    (Stub.request_of "GET" "/connect"
                       (Stub.descriptor "stub" []))
                    Stub.start)) = [0]
  /\ exists c : call string,
       own_call (R := Stub.runtime) v_connect
         (Stub.request_of "GET" "/connect" (Stub.descriptor "stub" [])) c
       /\ In (EvCall 0 c)
             (trace_of (view_function (R := Stub.runtime) v_connect
                          (Stub.request_of "GET" "/connect"
                             (Stub.descriptor "stub" []))
                          Stub.start))
       /\ called
            (trace_of (view_function (R := Stub.runtime) v_connect
                         (Stub.request_of "GET" "/connect"
                            (Stub.descriptor "stub" []))
                         Stub.start)) = [0]
       /\ state_of (view_function (R := Stub.runtime) v_connect
                      (Stub.request_of "GET" "/connect"
                         (Stub.descriptor "stub" []))
                      Stub.start)
          = mk_state (world_after (R := Stub.runtime) c [] 0) 1.
Proof.
  apply (proj1 (handler_is_built_for_each_request (R := Stub.runtime))
           v_connect
           (Stub.request_of "GET" "/connect" (Stub.descriptor "stub" []))
           Stub.start (Stub.descriptor "stub" []) (PStr "stub")
           Stub.StubHandler []);
    [ reflexivity | vm_compute; reflexivity | discriminate | reflexivity
    | reflexivity | reflexivity ].
Defined.

(** C8 fails on [query] when the field [query] does not decode: the
    request names the unregistered type [nosuchdb], and the view answers
    with the traceback of the base64 error, which does not mention it. *)
Lemma unknown_type_hidden_by_decode_failure :
  needs_handler v_query = true
  /\ parsed_body (R := Stub.runtime) v_query Stub.bad_query_of_unknown_type
     = Ok (Stub.descriptor "nosuchdb" [("query", PStr "a")])
  /\ getitem (Stub.descriptor "nosuchdb" [("query", PStr "a")]) "handler_type"
     = Ok (PStr "nosuchdb")
  /\ Stub.registry "nosuchdb" = None
  /\ ~ reports_unknown_type (R := Stub.runtime) v_query
         Stub.bad_query_of_unknown_type Stub.start "nosuchdb".
Proof.
  split; [reflexivity|]. split; [vm_compute; reflexivity|].
  split; [reflexivity|]. split; [reflexivity|].
  intros (b & msg & Hr & Hd & Hm & _).
  vm_compute in Hr. inversion Hr; subst b. clear Hr.
  cbn in Hd. inversion Hd; subst msg. clear Hd.
  vm_compute in Hm. discriminate Hm.
Qed.

(** The same unregistered type is reported by [get_tables]. *)
Lemma unknown_handler_type_is_reported_witness :
  reports_unknown_type (R := Stub.runtime) v_get_tables
    (Stub.request_of "GET" "/get_tables" (Stub.descriptor "nosuchdb" []))
    Stub.start "nosuchdb".
Proof.
  apply (unknown_handler_type_is_reported (R := Stub.runtime) Stub.registry
           (fun tag => eq_refl) v_get_tables
           (Stub.request_of "GET" "/get_tables" (Stub.descriptor "nosuchdb" []))
           Stub.start (Stub.descriptor "nosuchdb" []) "nosuchdb");
    [reflexivity | vm_compute; reflexivity | reflexivity | reflexivity
    | discriminate].
Defined.

(** The pickle of the stub gives back every statement. *)
Lemma stub_pickle_round_trip (x : string) (data : bytes) :
  Stub.stub_pickle_dumps x = Ok data ->
  exists x', Stub.stub_pickle_loads data = Ok x' /\ x = x'.
Proof.
  intro Hd. inversion Hd; subst data. exists x. split; [|reflexivity].
  cbn. now rewrite string_of_list_byte_of_string.
Defined.

(** The statement the caller encodes for the stub comes out of the
    decoding of [query]. *)
Lemma query_codec_round_trip_witness :
  exists (j : pyval) (q' : string),
    result_of (decode_query (R := Stub.runtime)
                 (Stub.request_of "GET" "/query"
                    (query_document "stub" [] (Stub.b64_of Stub.select_t)))
                 Stub.start) = Ok (j, q')
    /\ getitem j "handler_type" = Ok (PStr "stub")
    /\ getitem j "handler_kwargs" = Ok (PDict [])
    /\ Stub.select_t = q'.
Proof.
  apply (query_codec_round_trip (R := Stub.runtime) Stub.stub_pickle_dumps
           Stub.stub_json_dumps eq "stub" [] Stub.select_t).
  - exact stub_pickle_round_trip.
  - intros s_query Hd. inversion Hd; subst s_query. vm_compute. reflexivity.
  - vm_compute. reflexivity.
Defined.

(** The rule of [disconnect] has the path of [connect]. *)
Lemma connect_and_disconnect_share_a_route_witness :
  rule_path (mk_rule "/connect" ["GET"] v_disconnect) = "/connect"
  /\ rule_methods (mk_rule "/connect" ["GET"] v_disconnect) = ["GET"].
Proof.
  apply (proj1 (proj2 (proj2 connect_and_disconnect_share_a_route))
           (mk_rule "/connect" ["GET"] v_disconnect)).
  - cbn. auto.
  - right. reflexivity.
Defined.

(** The scenarios of the stub, end to end. *)

(** A POST of a statement to [/native_query] is answered with the row the
    stub echoes. *)
Example native_query_end_to_end :
  dispatch_request (R := Stub.runtime) DBHandlerWrapper_init
    (Stub.request_of "POST" "/native_query"
       (Stub.descriptor "stub" [("query", PStr "SELECT 1")]))
    Stub.start
  = (Answered (QueryJson Stub.one_row, 200%Z), mk_state 1 1,
     [ EvRequestJson; EvGet "query"; EvRequestJson;
       EvGetItem "handler_type"; EvLookupClass (PStr "stub");
       EvGetItem "handler_kwargs"; EvConstruct Stub.StubHandler [] 0;
       EvCall 0 (CallNativeQuery (PStr "SELECT 1")) ]).
Proof. vm_compute. reflexivity. Qed.

(** A GET of [/query] with the statement on the table the stub does not
    know is answered with status 500 and the traceback of the stub. *)
Example query_on_unknown_table :
  fst (fst (dispatch_request (R := Stub.runtime) DBHandlerWrapper_init
              (Stub.request_of "GET" "/query"
                 (query_document "stub" [] (Stub.b64_of Stub.select_t)))
              Stub.start))
  = Answered (error_response (R := Stub.runtime)
                (mk_exn "Exception" "unknown table t")).
Proof. vm_compute. reflexivity. Qed.

(** Bytes that are base64 and no pickle are a decoding failure. *)
Example query_of_no_pickle :
  decode_failure (R := Stub.runtime)
    (req_data (Stub.request_of "GET" "/query"
                 (Stub.descriptor "stub" [("query", PStr "AAAA")])))
    (mk_exn "_pickle.UnpicklingError" "invalid load key").
Proof.
  apply (bad_pickle (R := Stub.runtime) _ _
           (Stub.descriptor "stub" [("query", PStr "AAAA")]) (PStr "AAAA")
           (list_byte_of_string "AAAA") [x00; x00; x00]);
    vm_compute; reflexivity.
Qed.

(** A GET of [/connect] reaches [connect], the rule added first, and a
    GET of [/disconnect] reaches no view. *)
Example connect_is_served_and_disconnect_is_not :
  serve (R := Stub.runtime) DBHandlerWrapper_init
    [ Stub.request_of "GET" "/connect" (Stub.descriptor "stub" []);
      Stub.request_of "GET" "/disconnect" (Stub.descriptor "stub" []) ]
    Stub.start
  = [ (Answered (BodyDict [("status", PStr "OK")], 200%Z),
       [ EvRequestJson; EvGetItem "handler_type"; EvLookupClass (PStr "stub");
         EvGetItem "handler_kwargs"; EvConstruct Stub.StubHandler [] 0;
         EvCall 0 CallConnect ]);
      (NoRoute, []) ].
Proof. vm_compute. reflexivity. Qed.

(** ** The further facts on the stub runtime *)

(** The descriptor of the stub resolves to a handler built from no
    argument. *)
Lemma get_handler_succeeds_iff_witness :
  result_of (get_handler (R := Stub.runtime) (Stub.descriptor "stub" [])
               Stub.start)
  = Ok (mk_handle 0 [])
  /\ state_of (get_handler (R := Stub.runtime) (Stub.descriptor "stub" [])
                 Stub.start)
     = mk_state 0 1.
Proof.
  apply (proj2 (get_handler_succeeds_iff (R := Stub.runtime)
                  (Stub.descriptor "stub" []) Stub.start [] 0)).
  exists (PStr "stub"), Stub.StubHandler, [].
  repeat split; reflexivity.
Defined.

(** An empty object raises the [KeyError] of [handler_type]. *)
Lemma get_handler_errors_in_order_witness :
  get_handler (R := Stub.runtime) (PDict []) Stub.start
  = (Raise (KeyError "handler_type"), Stub.start,
     [EvGetItem "handler_type"]).
Proof.
  exact (proj1 (get_handler_errors_in_order (R := Stub.runtime) (PDict [])
                  Stub.start)
               [] eq_refl eq_refl).
Defined.

(** The answer of [get_tables] for an unregistered type is in the
    envelope of the view. *)
Lemma views_answer_in_their_envelope_witness :
  in_envelope v_get_tables
    (error_response (R := Stub.runtime) (UnknownBackendType "nosuchdb")).
Proof.
  apply (views_answer_in_their_envelope (R := Stub.runtime) v_get_tables
           (Stub.request_of "GET" "/get_tables"
              (Stub.descriptor "nosuchdb" []))
           Stub.start).
  vm_compute. reflexivity.
Defined.

(** The answer of [connect] for an unregistered type carries a
    traceback. *)
Lemma failure_answer_carries_traceback_witness :
  exists e : exn,
    diagnostic
      (fail_body (R := Stub.runtime) (UnknownBackendType "nosuchdb"))
    = Some (format_exc Stub.stub_frames_of e)
    /\ format_exc Stub.stub_frames_of e <> "".
Proof.
  apply (failure_answer_carries_traceback (R := Stub.runtime) v_connect
           (Stub.request_of "GET" "/connect" (Stub.descriptor "nosuchdb" []))
           Stub.start).
  vm_compute. reflexivity.
Defined.

(** A successful [check_connection] built one handler and called it
    once. *)
Lemma success_means_one_handler_one_call_witness :
  constructed
    (trace_of (view_function (R := Stub.runtime) v_check_connection
                 (Stub.request_of "GET" "/check_connection"
                    (Stub.descriptor "stub" []))
                 Stub.start)) = [0]
  /\ called
       (trace_of (view_function (R := Stub.runtime) v_check_connection
                    (Stub.request_of "GET" "/check_connection"
                       (Stub.descriptor "stub" []))
                    Stub.start)) = [0]
  /\ exists c : call string,
       In (EvCall 0 c)
          (trace_of (view_function (R := Stub.runtime) v_check_connection
                       (Stub.request_of "GET" "/check_connection"
                          (Stub.descriptor "stub" []))
                       Stub.start))
       /\ own_call (R := Stub.runtime) v_check_connection
            (Stub.request_of "GET" "/check_connection"
               (Stub.descriptor "stub" []))
            c.
Proof.
  apply (success_means_one_handler_one_call (R := Stub.runtime)
           v_check_connection
           (Stub.request_of "GET" "/check_connection"
              (Stub.descriptor "stub" []))
           Stub.start
           (StatusJson (mk_StatusResponse true None)));
    [reflexivity | vm_compute; reflexivity].
Defined.

(** The call [get_tables] makes on the stub is [get_tables]. *)
Lemma view_calls_only_its_capability_witness :
  own_call (R := Stub.runtime) v_get_tables
    (Stub.request_of "GET" "/get_tables" (Stub.descriptor "stub" []))
    CallGetTables.
Proof.
  apply (proj1 (view_calls_only_its_capability (R := Stub.runtime)
                  v_get_tables
                  (Stub.request_of "GET" "/get_tables"
                     (Stub.descriptor "stub" []))
                  Stub.start)
               0 CallGetTables).
  vm_compute. auto 10.
Defined.

(** A body without [query] reaches the stub handler with [None]. *)
Lemma native_query_passes_query_verbatim_witness :
  trace_of (native_query (R := Stub.runtime)
              (Stub.request_of "POST" "/native_query"
                 (Stub.descriptor "stub" []))
              Stub.start)
  = ([EvRequestJson; EvGet "query"; EvRequestJson]
       ++ [ EvGetItem "handler_type"; EvLookupClass (PStr "stub");
            EvGetItem "handler_kwargs"; EvConstruct Stub.StubHandler [] 0 ]
       ++ [EvCall 0 (CallNativeQuery PNone)])%list
  /\ result_of (native_query (R := Stub.runtime)
                  (Stub.request_of "POST" "/native_query"
                     (Stub.descriptor "stub" []))
                  Stub.start)
     = Ok (QueryJson Stub.one_row, 200%Z).
Proof.
  exact (native_query_passes_query_verbatim (R := Stub.runtime)
           (Stub.request_of "POST" "/native_query" (Stub.descriptor "stub" []))
           Stub.start
           [("handler_type", PStr "stub"); ("handler_kwargs", PDict [])]
           (mk_handle 0 []) (mk_state 0 1)
           [ EvGetItem "handler_type"; EvLookupClass (PStr "stub");
             EvGetItem "handler_kwargs"; EvConstruct Stub.StubHandler [] 0 ]
           eq_refl eq_refl).
Defined.

(** A table named by a number reaches the handler as that number. *)
Lemma get_columns_passes_table_verbatim_witness :
  trace_of (get_columns (R := Canned.runtime Canned.numbered_table)
              Canned.any_request Stub.start)
  = ([EvRequestJson; EvGet "table"; EvRequestJson]
       ++ [ EvGetItem "handler_type"; EvLookupClass (PStr "stub");
            EvGetItem "handler_kwargs"; EvConstruct Stub.StubHandler [] 0 ]
       ++ [EvCall 0 (CallGetColumns (PInt 7))])%list
  /\ result_of (get_columns (R := Canned.runtime Canned.numbered_table)
                  Canned.any_request Stub.start)
     = Ok (QueryJson Stub.one_row, 200%Z).
Proof.
  exact (get_columns_passes_table_verbatim
           (R := Canned.runtime Canned.numbered_table)
           Canned.any_request Stub.start
           [ ("handler_type", PStr "stub"); ("handler_kwargs", PDict []);
             ("table", PInt 7) ]
           (PInt 7) (mk_handle 0 []) (mk_state 0 1)
           [ EvGetItem "handler_type"; EvLookupClass (PStr "stub");
             EvGetItem "handler_kwargs"; EvConstruct Stub.StubHandler [] 0 ]
           eq_refl eq_refl eq_refl).
Defined.

(** [connect] reads [request.json] first. *)
Lemma query_never_reads_request_json_witness :
  exists t,
    trace_of (view_function (R := Stub.runtime) v_connect
                (Stub.request_of "GET" "/connect" (Stub.descriptor "stub" []))
                Stub.start)
    = EvRequestJson :: t.
Proof.
  apply (proj2 (query_never_reads_request_json (R := Stub.runtime)
                  (Stub.request_of "GET" "/connect"
                     (Stub.descriptor "stub" []))
                  Stub.start)
               v_connect);
    [reflexivity | discriminate].
Defined.

(** [connect] on the stub answers OK. *)
Lemma connect_and_disconnect_answer_OK_iff_witness :
  result_of (connect (R := Stub.runtime)
               (Stub.request_of "GET" "/connect" (Stub.descriptor "stub" []))
               Stub.start)
  = Ok (BodyDict [("status", PStr "OK")], 200%Z).
Proof.
  apply (proj2 (proj1 (connect_and_disconnect_answer_OK_iff
                         (R := Stub.runtime)
                         (Stub.request_of "GET" "/connect"
                            (Stub.descriptor "stub" []))
                         Stub.start))).
  exists (Stub.descriptor "stub" []), (mk_handle 0 []), (mk_state 0 1),
    [ EvGetItem "handler_type"; EvLookupClass (PStr "stub");
      EvGetItem "handler_kwargs"; EvConstruct Stub.StubHandler [] 0 ], 1.
  repeat split; vm_compute; reflexivity.
Defined.

(** A handler that reports a failed check without raising is answered
    with code 200 and success false. *)
Lemma handler_result_is_forwarded_verbatim_witness :
  check_connection (R := Canned.runtime Canned.down) Canned.any_request
    Stub.start
  = (Ok (StatusJson (mk_StatusResponse false None), 200%Z), mk_state 1 1,
     (EvRequestJson
        :: [ EvGetItem "handler_type"; EvLookupClass (PStr "stub");
             EvGetItem "handler_kwargs";
             EvConstruct Stub.StubHandler [("up", PBool false)] 0 ]
        ++ [EvCall 0 CallCheckConnection])%list).
Proof.
  apply (proj1 (handler_result_is_forwarded_verbatim
                  (R := Canned.runtime Canned.down) Canned.any_request
                  Stub.start Canned.down
                  (mk_handle 0 [("up", PBool false)]) (mk_state 0 1)
                  [ EvGetItem "handler_type"; EvLookupClass (PStr "stub");
                    EvGetItem "handler_kwargs";
                    EvConstruct Stub.StubHandler [("up", PBool false)] 0 ]
                  eq_refl eq_refl)
               (mk_StatusResponse false None) 1).
  reflexivity.
Defined.
